(** * Typography plugin: text layer schema, validator and the two renderers

    A shallow embedding of [src/text-render.ts], [src/fonts.ts] and
    [src/text-layer.ts] together with the properties the specification
    states about them.

    JavaScript values are modelled as the primitive values a
    [LayerProperties] record can hold; numbers are IEEE-754 doubles
    (Rocq's primitive floats), strings are the bytes of their UTF-8 form
    ([string]; on ASCII text a byte is a code unit of the source's
    string), a property record is a finite map from keys to values and
    the canvas context is the sequence of operations issued on it. *)

From Stdlib Require Import Floats Ascii String.
From stdpp Require Import gmap strings list pretty.

Local Open Scope string_scope.
Local Open Scope list_scope.

(** A decimal literal such as [1.2] denotes the nearest double, as it
    does in the source. *)
Set Warnings "-inexact-float".

(** ** JavaScript values *)

Inductive value : Type :=
| VUndefined
| VNull
| VBool (b : bool)
| VNum (n : float)
| VStr (s : string).

(** A thrown exception.  The only one the modelled code can raise on
    primitive values is the [TypeError] of calling a missing method. *)
Inductive js_error : Type :=
| TypeError.

Inductive completion (A : Type) : Type :=
| Normal (a : A)
| Throw (e : js_error).
Arguments Normal {A} a.
Arguments Throw {A} e.

Definition completes {A} (c : completion A) : bool :=
  match c with Normal _ => true | Throw _ => false end.

(** [typeof v] *)
Definition typeof (v : value) : string :=
  match v with
  | VUndefined => "undefined"
  | VNull => "object"
  | VBool _ => "boolean"
  | VNum _ => "number"
  | VStr _ => "string"
  end.

(** ToBoolean: [undefined], [null], [false], [+0], [-0], [NaN] and the
    empty string are falsy. *)
Definition truthy (v : value) : bool :=
  match v with
  | VUndefined | VNull => false
  | VBool b => b
  | VNum n => negb (PrimFloat.eqb n 0) && PrimFloat.eqb n n
  | VStr s => negb (String.eqb s "")
  end.

(** [a ?? b] *)
Definition coalesce (a b : value) : value :=
  match a with
  | VUndefined | VNull => b
  | _ => a
  end.
Infix "??" := coalesce (at level 45, left associativity).

(** [v === "lit"] against a string literal. *)
Definition strict_eq_str (v : value) (lit : string) : bool :=
  match v with
  | VStr s => String.eqb s lit
  | _ => false
  end.

(** ** The number/string conversions of the JavaScript runtime

    [Number::toString] and [StringToNumber] belong to the engine, not to
    the plugin; the development is parametric in them. *)
Class JsRuntime : Type := {
  NumberToString : float -> string;
  StringToNumber : string -> float;
}.

Section Coercions.
Context `{JsRuntime}.

Definition ToString (v : value) : string :=
  match v with
  | VUndefined => "undefined"
  | VNull => "null"
  | VBool true => "true"
  | VBool false => "false"
  | VNum n => NumberToString n
  | VStr s => s
  end.

Definition ToNumber (v : value) : float :=
  match v with
  | VUndefined => PrimFloat.nan
  | VNull => 0%float
  | VBool true => 1%float
  | VBool false => 0%float
  | VNum n => n
  | VStr s => StringToNumber s
  end.

(** [a + b]: concatenation as soon as one operand is a string. *)
Definition js_add (a b : value) : value :=
  match a, b with
  | VStr s, _ => VStr (s +:+ ToString b)
  | _, VStr s => VStr (ToString a +:+ s)
  | _, _ => VNum (ToNumber a + ToNumber b)%float
  end.

(** [a * b] *)
Definition js_mul (a b : value) : float :=
  (ToNumber a * ToNumber b)%float.

(** [a > n] against a number. *)
Definition js_gt_num (a : value) (n : float) : bool :=
  PrimFloat.ltb n (ToNumber a).
End Coercions.

(** The loop counter [i] after [k] increments [i++] from [0]: the double
    [k] itself as long as [k] is below [2^53]. *)
Definition js_index (k : nat) : float :=
  Nat.iter k (fun i => (i + 1)%float) 0%float.

(** ** Strings *)

Definition dquote : string := String "034"%char EmptyString.
Definition LF : ascii := "010"%char.

(** [s.split(sep)] for a one-character separator. *)
Fixpoint split (sep : ascii) (s : string) : list string :=
  match s with
  | EmptyString => [EmptyString]
  | String c s' =>
      if Ascii.eqb c sep then EmptyString :: split sep s'
      else match split sep s' with
           | h :: t => String c h :: t
           | [] => [String c EmptyString]
           end
  end.

(** [s.replace(/c/g, r)] for a one-character pattern and a replacement
    without [$] patterns. *)
Fixpoint replace_all (c : ascii) (r : string) (s : string) : string :=
  match s with
  | EmptyString => EmptyString
  | String a s' =>
      if Ascii.eqb a c then r +:+ replace_all c r s'
      else String a (replace_all c r s')
  end.

(** [s.includes(sub)] *)
Fixpoint includes (s sub : string) : bool :=
  String.prefix sub s ||
  match s with
  | EmptyString => false
  | String _ s' => includes s' sub
  end.

(** ** Property records and bounds *)

Abbreviation LayerProperties := (gmap string value) (only parsing).

(** [properties.key]: a missing key reads as [undefined]. *)
Definition prop (properties : LayerProperties) (key : string) : value :=
  default VUndefined (properties !! key).

Record LayerBounds : Type := {
  x : float;
  y : float;
  width : float;
  height : float;
  rotation : float;
  scaleX : float;
  scaleY : float;
}.

(** ** Font registry ([src/fonts.ts]) *)

Record BuiltInFont : Type := {
  family : string;
  weights : list float;
  category : string;
}.

Definition BUILT_IN_FONTS : list BuiltInFont :=
  [ {| family := "Inter"; weights := [400%float; 700%float]; category := "sans-serif" |};
    {| family := "JetBrains Mono"; weights := [400%float]; category := "monospace" |};
    {| family := "Georgia"; weights := [400%float; 700%float]; category := "serif" |};
    {| family := "Arial"; weights := [400%float; 700%float]; category := "sans-serif" |};
    {| family := "Helvetica"; weights := [400%float; 700%float]; category := "sans-serif" |};
    {| family := "Times New Roman"; weights := [400%float; 700%float]; category := "serif" |};
    {| family := "Courier New"; weights := [400%float; 700%float]; category := "monospace" |};
    {| family := "Verdana"; weights := [400%float; 700%float]; category := "sans-serif" |} ].

Definition FONT_FALLBACKS : list (string * string) :=
  [ ("sans-serif", "Inter, -apple-system, BlinkMacSystemFont, 'Segoe UI', sans-serif");
    ("monospace", "'JetBrains Mono', 'SF Mono', 'Fira Code', monospace");
    ("serif", "Georgia, 'Times New Roman', serif");
    ("display", "Inter, -apple-system, sans-serif") ].

(** [record[key]] on a string-keyed record literal. *)
Fixpoint record_get (record : list (string * string)) (key : string) : option string :=
  match record with
  | [] => None
  | (k, v) :: rest => if String.eqb k key then Some v else record_get rest key
  end.

Section Fonts.
Context `{JsRuntime}.

(** The parameter is typed [string] in the source; the renderer passes
    whatever the property record holds. *)
Definition resolveFontStack (requested : value) : string :=
  match List.find (fun f => strict_eq_str requested f.(family)) BUILT_IN_FONTS with
  | None => "'" +:+ ToString requested +:+ "', sans-serif"
  | Some font =>
      "'" +:+ ToString requested +:+ "', "
        +:+ default "sans-serif" (record_get FONT_FALLBACKS font.(category))
  end.
End Fonts.

(** ** The drawing surface

    A [CanvasRenderingContext2D] is observed through the operations the
    renderer issues on it, in order: method calls and attribute writes. *)

Inductive ctx_op : Type :=
| Save
| Restore
| SetFont (v : string)
| SetTextAlign (v : value)
| SetTextBaseline (v : value)
| SetShadowColor (v : value)
| SetShadowBlur (v : value)
| SetShadowOffsetX (v : value)
| SetShadowOffsetY (v : value)
| SetStrokeStyle (v : value)
| SetLineWidth (v : value)
| SetLineJoin (v : string)
| StrokeText (line : string) (px py : float)
| SetFillStyle (v : value)
| FillText (line : string) (px py : float).

(** A computation on the surface: the operations issued so far and how
    the computation ended.  Operations issued before a throw stay
    issued. *)
Definition Canvas (A : Type) : Type := (list ctx_op * completion A)%type.

#[export] Instance canvas_ret : MRet Canvas :=
  fun A (a : A) => ([], Normal a).

#[export] Instance canvas_bind : MBind Canvas :=
  fun A B (f : A -> Canvas B) (m : Canvas A) =>
    match m with
    | (ops, Normal a) => let '(ops', r) := f a in (ops ++ ops', r)
    | (ops, Throw e) => (ops, Throw e)
    end.

Definition emit (op : ctx_op) : Canvas unit := ([op], Normal tt).

Definition lift {A} (c : completion A) : Canvas A := ([], c).

Definition when (b : bool) (m : Canvas unit) : Canvas unit :=
  if b then m else mret tt.

(** [text.split(sep)]: only strings have the method. *)
Definition call_split (text : value) (sep : ascii) : completion (list string) :=
  match text with
  | VStr s => Normal (split sep s)
  | _ => Throw TypeError
  end.

(** [text.replace(/c/g, r)]: only strings have the method. *)
Definition call_replace (text : value) (c : ascii) (r : string) : completion value :=
  match text with
  | VStr s => Normal (VStr (replace_all c r s))
  | _ => Throw TypeError
  end.

(** ** Raster renderer ([src/text-render.ts]) *)

Section Render.
Context `{JsRuntime}.

(** The body of [for (let i = 0; i < lines.length; i++)], started at
    counter value [i] on the remaining lines. *)
Fixpoint renderLines (bounds : LayerBounds) (px lineSpacing : float)
    (strokeEnabled strokeColor strokeWidth color : value)
    (lines : list string) (i : float) : Canvas unit :=
  match lines with
  | [] => mret tt
  | line :: rest =>
      let py := (bounds.(y) + i * lineSpacing)%float in
      when (truthy strokeEnabled && js_gt_num strokeWidth 0)
        (emit (SetStrokeStyle strokeColor) ;;
         emit (SetLineWidth strokeWidth) ;;
         emit (SetLineJoin "round") ;;
         emit (StrokeText line px py)) ;;
      emit (SetFillStyle color) ;;
      emit (FillText line px py) ;;
      renderLines bounds px lineSpacing strokeEnabled strokeColor strokeWidth color
        rest (i + 1)%float
  end.

Definition renderText (properties : LayerProperties) (bounds : LayerBounds)
    : Canvas unit :=
  let text := prop properties "text" ?? VStr "" in
  if negb (truthy text) then mret tt else
  let fontSize := prop properties "fontSize" ?? VNum 48 in
  let fontFamily := prop properties "fontFamily" ?? VStr "Inter" in
  let fontWeight := prop properties "fontWeight" ?? VStr "400" in
  let fontStyle := prop properties "fontStyle" ?? VStr "normal" in
  let color := prop properties "color" ?? VStr "#ffffff" in
  let align := prop properties "align" ?? VStr "left" in
  let baseline := prop properties "baseline" ?? VStr "top" in
  let lineHeight := prop properties "lineHeight" ?? VNum 1.2 in
  let strokeEnabled := prop properties "strokeEnabled" ?? VBool false in
  let strokeColor := prop properties "strokeColor" ?? VStr "#000000" in
  let strokeWidth := prop properties "strokeWidth" ?? VNum 2 in
  let shadowEnabled := prop properties "shadowEnabled" ?? VBool false in
  let shadowColor := prop properties "shadowColor" ?? VStr "rgba(0,0,0,0.5)" in
  let shadowBlur := prop properties "shadowBlur" ?? VNum 4 in
  let shadowOffsetX := prop properties "shadowOffsetX" ?? VNum 2 in
  let shadowOffsetY := prop properties "shadowOffsetY" ?? VNum 2 in
  emit Save ;;
  let fontStack := resolveFontStack fontFamily in
  emit (SetFont (ToString fontStyle +:+ " " +:+ ToString fontWeight +:+ " "
                   +:+ ToString fontSize +:+ "px " +:+ fontStack)) ;;
  emit (SetTextAlign align) ;;
  emit (SetTextBaseline baseline) ;;
  let px :=
    if strict_eq_str align "center" then (bounds.(x) + bounds.(width) / 2)%float
    else if strict_eq_str align "right" then (bounds.(x) + bounds.(width))%float
    else bounds.(x) in
  when (truthy shadowEnabled)
    (emit (SetShadowColor shadowColor) ;;
     emit (SetShadowBlur shadowBlur) ;;
     emit (SetShadowOffsetX shadowOffsetX) ;;
     emit (SetShadowOffsetY shadowOffsetY)) ;;
  lines ← lift (call_split text LF);
  let lineSpacing := js_mul fontSize lineHeight in
  renderLines bounds px lineSpacing strokeEnabled strokeColor strokeWidth color
    lines 0%float ;;
  emit Restore.
End Render.

(** ** Property schema ([src/text-layer.ts]) *)

Module LayerPropertySchema.
Record t : Type := {
  key : string;
  label : string;
  type : string;
  default : value;
  group : string;
  min : option float;
  max : option float;
  step : option float;
  (** [{ value, label }] pairs of a select. *)
  options : option (list (string * string));
}.
End LayerPropertySchema.

Section Schema.
Import LayerPropertySchema.

Definition TEXT_PROPERTIES : list LayerPropertySchema.t :=
  [ {| key := "text"; label := "Text"; type := "string";
       default := VStr "Hello World"; group := "content";
       min := None; max := None; step := None; options := None |};
    {| key := "fontFamily"; label := "Font Family"; type := "select";
       default := VStr "Inter"; group := "font";
       min := None; max := None; step := None;
       options := Some (List.map (fun f => (f.(family), f.(family))) BUILT_IN_FONTS) |};
    {| key := "fontSize"; label := "Font Size"; type := "number";
       default := VNum 48; group := "font";
       min := Some 1%float; max := Some 1000%float; step := Some 1%float;
       options := None |};
    {| key := "fontWeight"; label := "Font Weight"; type := "select";
       default := VStr "400"; group := "font";
       min := None; max := None; step := None;
       options := Some [("400", "Regular"); ("700", "Bold")] |};
    {| key := "fontStyle"; label := "Font Style"; type := "select";
       default := VStr "normal"; group := "font";
       min := None; max := None; step := None;
       options := Some [("normal", "Normal"); ("italic", "Italic")] |};
    {| key := "color"; label := "Color"; type := "color";
       default := VStr "#ffffff"; group := "style";
       min := None; max := None; step := None; options := None |};
    {| key := "align"; label := "Alignment"; type := "select";
       default := VStr "left"; group := "layout";
       min := None; max := None; step := None;
       options := Some [("left", "Left"); ("center", "Center"); ("right", "Right")] |};
    {| key := "baseline"; label := "Baseline"; type := "select";
       default := VStr "top"; group := "layout";
       min := None; max := None; step := None;
       options := Some [("top", "Top"); ("middle", "Middle");
                        ("alphabetic", "Alphabetic"); ("bottom", "Bottom")] |};
    {| key := "lineHeight"; label := "Line Height"; type := "number";
       default := VNum 1.2; group := "layout";
       min := Some 0.5%float; max := Some 5%float; step := Some 0.1%float;
       options := None |};
    {| key := "strokeEnabled"; label := "Stroke Enabled"; type := "boolean";
       default := VBool false; group := "stroke";
       min := None; max := None; step := None; options := None |};
    {| key := "strokeColor"; label := "Stroke Color"; type := "color";
       default := VStr "#000000"; group := "stroke";
       min := None; max := None; step := None; options := None |};
    {| key := "strokeWidth"; label := "Stroke Width"; type := "number";
       default := VNum 2; group := "stroke";
       min := Some 0%float; max := Some 50%float; step := Some 0.5%float;
       options := None |};
    {| key := "shadowEnabled"; label := "Shadow Enabled"; type := "boolean";
       default := VBool false; group := "shadow";
       min := None; max := None; step := None; options := None |};
    {| key := "shadowColor"; label := "Shadow Color"; type := "color";
       default := VStr "rgba(0,0,0,0.5)"; group := "shadow";
       min := None; max := None; step := None; options := None |};
    {| key := "shadowBlur"; label := "Shadow Blur"; type := "number";
       default := VNum 4; group := "shadow";
       min := Some 0%float; max := Some 100%float; step := Some 1%float;
       options := None |};
    {| key := "shadowOffsetX"; label := "Shadow Offset X"; type := "number";
       default := VNum 2; group := "shadow";
       min := Some (-100)%float; max := Some 100%float; step := Some 1%float;
       options := None |};
    {| key := "shadowOffsetY"; label := "Shadow Offset Y"; type := "number";
       default := VNum 2; group := "shadow";
       min := Some (-100)%float; max := Some 100%float; step := Some 1%float;
       options := None |} ].
End Schema.

(** ** Objects on the heap

    [createDefault] allocates a new object on every call and callers
    mutate the result; object identity is a location of the heap. *)

Abbreviation loc := positive (only parsing).
Abbreviation heap := (gmap positive (gmap string value)) (only parsing).

(** [{}]: a location not yet in use, holding an empty record. *)
Definition alloc (h : heap) : loc * heap :=
  let l := fresh (dom h) in (l, <[l := ∅]> h).

(** [obj[key] = v] *)
Definition store (l : loc) (key : string) (v : value) (h : heap) : heap :=
  alter (insert key v) l h.

Definition createDefault (h : heap) : loc * heap :=
  let '(props, h) := alloc h in
  let h :=
    foldl (fun h schema =>
             store props schema.(LayerPropertySchema.key)
               schema.(LayerPropertySchema.default) h)
          h TEXT_PROPERTIES in
  (props, h).

(** ** Vector renderer ([renderSVG] of [src/text-layer.ts]) *)

#[export] Instance completion_ret : MRet completion :=
  fun A (a : A) => Normal a.

#[export] Instance completion_bind : MBind completion :=
  fun A B (f : A -> completion B) (m : completion A) =>
    match m with
    | Normal a => f a
    | Throw e => Throw e
    end.

Section RenderSVG.
Context `{JsRuntime}.

Definition renderSVG (properties : LayerProperties) (bounds : LayerBounds)
    : completion string :=
  let text := prop properties "text" ?? VStr "" in
  let fontSize := prop properties "fontSize" ?? VNum 48 in
  let fontFamily := prop properties "fontFamily" ?? VStr "Inter" in
  let fontWeight := prop properties "fontWeight" ?? VStr "400" in
  let fontStyle := prop properties "fontStyle" ?? VStr "normal" in
  let color := prop properties "color" ?? VStr "#ffffff" in
  let align := prop properties "align" ?? VStr "left" in
  let '(textAnchor, px) :=
    if strict_eq_str align "center"
    then ("middle", (bounds.(x) + bounds.(width) / 2)%float)
    else if strict_eq_str align "right"
    then ("end", (bounds.(x) + bounds.(width))%float)
    else ("start", bounds.(x)) in
  escaped ← call_replace text "&" "&amp;";
  escaped ← call_replace escaped "<" "&lt;";
  escaped ← call_replace escaped ">" "&gt;";
  mret ("<text x=" +:+ dquote +:+ NumberToString px +:+ dquote
        +:+ " y=" +:+ dquote +:+ ToString (js_add (VNum bounds.(y)) fontSize) +:+ dquote
        +:+ " font-family=" +:+ dquote +:+ ToString fontFamily +:+ dquote
        +:+ " font-size=" +:+ dquote +:+ ToString fontSize +:+ dquote
        +:+ " font-weight=" +:+ dquote +:+ ToString fontWeight +:+ dquote
        +:+ " font-style=" +:+ dquote +:+ ToString fontStyle +:+ dquote
        +:+ " fill=" +:+ dquote +:+ ToString color +:+ dquote
        +:+ " text-anchor=" +:+ dquote +:+ textAnchor +:+ dquote
        +:+ ">" +:+ ToString escaped +:+ "</text>").
End RenderSVG.

(** ** Validator ([validate] of [src/text-layer.ts]) *)

Record ValidationError : Type := {
  property : string;
  message : string;
}.

Definition validate (properties : LayerProperties) : option (list ValidationError) :=
  let errors := [] in
  let errors :=
    if negb (String.eqb (typeof (prop properties "text")) "string")
    then errors ++ [ {| property := "text"; message := "Text must be a string" |} ]
    else errors in
  let fontSize := prop properties "fontSize" in
  let errors :=
    (* [||] short-circuits: the comparisons run on numbers only. *)
    if match fontSize with
       | VNum n => PrimFloat.ltb n 1 || PrimFloat.ltb 1000 n
       | _ => true
       end
    then errors ++ [ {| property := "fontSize";
                        message := "Font size must be a number between 1 and 1000" |} ]
    else errors in
  let fontWeight := prop properties "fontWeight" in
  let errors :=
    if negb (strict_eq_str fontWeight "400") && negb (strict_eq_str fontWeight "700")
    then errors ++ [ {| property := "fontWeight";
                        message := "Font weight must be '400' or '700'" |} ]
    else errors in
  if Nat.ltb 0 (length errors) then Some errors else None.

(** ** A runtime for closed examples

    The statements below hold for every runtime.  Closed examples are
    evaluated with this one.  It is the engine's [Number::toString] on
    [NaN], the infinities, the zeros and the integers of magnitude below
    [2^53]; any other finite number is printed exactly, as
    [mantissa*2^exponent], which is not the engine's shortest decimal.
    It is the engine's [StringToNumber] on the empty string, on strings
    of decimal digits denoting an integer below [2^53], and on strings
    that hold a letter and are no numeric literal ([NaN]).  The examples
    stay within the inputs on which it is the engine's. *)

Definition digit_of (c : ascii) : option Z :=
  let n := Z.of_nat (nat_of_ascii c) in
  if (48 <=? n)%Z && (n <=? 57)%Z then Some (n - 48)%Z else None.

Fixpoint decimal_value (acc : Z) (s : string) : option Z :=
  match s with
  | EmptyString => Some acc
  | String c s' =>
      match digit_of c with
      | Some d => decimal_value (10 * acc + d)%Z s'
      | None => None
      end
  end.

Definition example_NumberToString (n : float) : string :=
  match Prim2SF n with
  | S754_nan => "NaN"
  | S754_zero _ => "0"
  | S754_infinity false => "Infinity"
  | S754_infinity true => "-Infinity"
  | S754_finite s m e =>
      let sign := if s then "-" else "" in
      if (0 <=? e)%Z then sign +:+ pretty (Z.pos m * 2 ^ e)%Z
      else if (Z.pos m mod 2 ^ (- e) =? 0)%Z
      then sign +:+ pretty (Z.pos m / 2 ^ (- e))%Z
      else sign +:+ pretty (Z.pos m) +:+ "*2^" +:+ pretty e
  end.

Definition example_StringToNumber (s : string) : float :=
  match decimal_value 0 s with
  | Some z => PrimFloat.of_uint63 (Uint63.of_Z z)
  | None => PrimFloat.nan
  end.

Definition example_runtime : JsRuntime := {|
  NumberToString := example_NumberToString;
  StringToNumber := example_StringToNumber;
|}.

(** The bounds rectangle of the test suite. *)
Definition BOUNDS : LayerBounds :=
  {| x := 10; y := 20; width := 400; height := 100;
     rotation := 0; scaleX := 1; scaleY := 1 |}.

(** The content of a fresh default record. *)
Definition defaults : LayerProperties :=
  foldl (fun o schema =>
           <[schema.(LayerPropertySchema.key) := schema.(LayerPropertySchema.default)]> o)
        ∅ TEXT_PROPERTIES.

(** Records of the test suite. *)
Definition example_text (t : string) : LayerProperties :=
  <["text" := VStr t]> defaults.

Definition three_lines : string :=
  "Line 1" +:+ String LF ("Line 2" +:+ String LF "Line 3").

Definition example_multiline : LayerProperties :=
  <["text" := VStr three_lines]>
    (<["fontSize" := VNum 24]> (<["lineHeight" := VNum 1.5]> defaults)).

Definition example_outlined : LayerProperties :=
  <["text" := VStr "Outlined"]>
    (<["strokeEnabled" := VBool true]>
       (<["strokeColor" := VStr "#ff0000"]> (<["strokeWidth" := VNum 3]> defaults))).

Definition default_font : string :=
  "normal 400 48px 'Inter', Inter, -apple-system, BlinkMacSystemFont, 'Segoe UI', sans-serif".

(** ** Style-mutation tools ([src/text-tools.ts]) *)

Module McpContent.
Record t : Type := {
  type : string;
  text : string;
}.
End McpContent.

(** [isError] is [false] when the property is absent. *)
Record McpToolResult : Type := {
  content : list McpContent.t;
  isError : bool;
}.

Definition textResult (text : string) : McpToolResult :=
  {| content := [ {| McpContent.type := "text"; McpContent.text := text |} ];
     isError := false |}.

Definition errorResult (text : string) : McpToolResult :=
  {| content := [ {| McpContent.type := "text"; McpContent.text := text |} ];
     isError := true |}.

Module LayerTransform.
Record t : Type := {
  x : value;
  y : value;
  width : float;
  height : float;
  rotation : float;
  scaleX : float;
  scaleY : float;
  anchorX : float;
  anchorY : float;
}.
End LayerTransform.

Module DesignLayer.
Record t : Type := {
  id : string;
  type : string;
  name : value;
  visible : bool;
  locked : bool;
  opacity : float;
  blendMode : string;
  transform : LayerTransform.t;
  properties : LayerProperties;
}.
End DesignLayer.

(** The host side of a tool call: the layer stack accessor, the change
    notification, the canvas width, and the clock and random source that
    [generateLayerId] reads.  [S] is the state of the host, [R] a layer
    object as [get] hands it out; [layer_read] gives the fields of such
    an object at a given time, so that a host may or may not show an
    update through an object handed out before it. *)
Class McpToolContext (S R : Type) : Type := {
  layers_get : value -> S -> option R;
  layer_read : R -> S -> DesignLayer.t;
  layers_add : DesignLayer.t -> S -> S;
  layers_updateProperties : value -> gmap string value -> S -> S;
  layers_updateTransform : value -> gmap string value -> S -> S;
  emitChange : string -> S -> S;
  canvasWidth : S -> float;
  Date_now : S -> float;
  Math_random : S -> float;
  (** [n.toString(36)] *)
  NumberToString36 : float -> string;
}.

(** [v !== undefined] *)
Definition defined (v : value) : bool :=
  match v with VUndefined => false | _ => true end.

(** [strings.join(sep)] *)
Fixpoint join (sep : string) (l : list string) : string :=
  match l with
  | [] => ""
  | [s] => s
  | s :: rest => s +:+ sep +:+ join sep rest
  end.

Definition styleKeys : list string :=
  [ "fontFamily"; "fontSize"; "fontWeight"; "fontStyle";
    "color"; "lineHeight";
    "strokeEnabled"; "strokeColor"; "strokeWidth" ].

(** *** Lengths in UTF-16 code units

    [text.length] and [text.slice] count UTF-16 code units, while
    [string] holds the bytes of the UTF-8 form.  A character contributes
    its code units at its leading byte: one for a leading byte of a
    one-, two- or three-byte form, two (a surrogate pair) for the leading
    byte of a four-byte form, none for a continuation byte. *)
Definition utf16_units (c : ascii) : nat :=
  let n := nat_of_ascii c in
  if Nat.ltb n 128 then 1
  else if Nat.ltb n 192 then 0
  else if Nat.ltb n 240 then 1
  else 2.

(** [s.length]. *)
Fixpoint js_length (s : string) : nat :=
  match s with
  | EmptyString => 0
  | String c s' => utf16_units c + js_length s'
  end.

(** The first code unit of the surrogate pair of the character whose
    four-byte form starts with [b0] and continues with [rest].  A lone
    surrogate has no UTF-8 form; it is held in the three bytes the UTF-8
    scheme gives its code-unit value. *)
Definition high_surrogate (b0 : ascii) (rest : string) : string :=
  match rest with
  | String b1 (String b2 (String b3 _)) =>
      let cp := (N_of_ascii b0 mod 8 * 262144 + N_of_ascii b1 mod 64 * 4096
                 + N_of_ascii b2 mod 64 * 64 + N_of_ascii b3 mod 64)%N in
      let hi := (55296 + (cp - 65536) / 1024)%N in
      String (ascii_of_N (224 + hi / 4096))
        (String (ascii_of_N (128 + hi / 64 mod 64))
           (String (ascii_of_N (128 + hi mod 64)) EmptyString))
  | _ => EmptyString
  end.

(** [s.slice(0, n)]: the characters within the first [n] code units.  A
    continuation byte belongs to the character kept before it; a pair
    that straddles the cut leaves its first code unit. *)
Fixpoint js_slice_to (n : nat) (s : string) : string :=
  match s with
  | EmptyString => EmptyString
  | String c s' =>
      let u := utf16_units c in
      if Nat.eqb u 0 then String c (js_slice_to n s')
      else if Nat.leb u n then String c (js_slice_to (n - u) s')
      else if Nat.eqb n 1 && Nat.eqb u 2 then high_surrogate c s'
      else EmptyString
  end.

Section Tools.
Context `{JsRuntime} {S R : Type} `{McpToolContext S R}.

Definition generateLayerId (s : S) : string :=
  "layer-" +:+ NumberToString36 (Date_now s) +:+ "-"
  +:+ substring 2 6 (NumberToString36 (Math_random s)).

(** [text.length > 20 ? text.slice(0, 20) + "…" : text].  Reading
    [length] of [undefined] or [null] throws; a number or a boolean has
    no [length], and [undefined > 20] is false.  The length and the cut
    are in UTF-16 code units, as in the source. *)
Definition layer_name (text : value) : completion value :=
  match text with
  | VUndefined | VNull => Throw TypeError
  | VStr s =>
      Normal (if Nat.ltb 20 (js_length s)
              then VStr (js_slice_to 20 s +:+ "…")
              else text)
  | _ => Normal text
  end.

(** [{ ...patch, [key]: input[source] }] when [input[source]] is defined. *)
Definition forward (input : gmap string value) (source key : string)
    (patch : gmap string value) : gmap string value :=
  if defined (prop input source) then <[key := prop input source]> patch else patch.

Definition setText_handler (input : gmap string value) (s : S)
    : S * completion McpToolResult :=
  let text := prop input "text" in
  let layerId := prop input "layerId" in
  if truthy layerId then
    match layers_get layerId s with
    | None =>
        (s, Normal (errorResult ("Layer '" +:+ ToString layerId +:+ "' not found.")))
    | Some layer =>
        if negb (String.eqb (DesignLayer.type (layer_read layer s)) "typography:text")
        then (s, Normal (errorResult
                           ("Layer '" +:+ ToString layerId +:+ "' is not a text layer.")))
        else
          let updates : gmap string value := {[ "text" := text ]} in
          let updates := forward input "fontSize" "fontSize" updates in
          let updates := forward input "fontFamily" "fontFamily" updates in
          let updates := forward input "color" "color" updates in
          let updates := forward input "align" "align" updates in
          let s := layers_updateProperties layerId updates s in
          let s :=
            if defined (prop input "x") || defined (prop input "y")
            then layers_updateTransform layerId
                   (forward input "y" "y" (forward input "x" "x" ∅)) s
            else s in
          let s := emitChange "layer-updated" s in
          (s, Normal (textResult ("Updated text layer '" +:+ ToString layerId +:+ "'.")))
    end
  else
    let id := generateLayerId s in
    (* [{ ...textLayerType.createDefault(), text, ... }]: a copy of the
       content of a new default record. *)
    let properties : LayerProperties :=
      forward input "align" "align"
        (forward input "color" "color"
           (forward input "fontFamily" "fontFamily"
              (forward input "fontSize" "fontSize"
                 (<["text" := text]> defaults)))) in
    match layer_name text with
    | Throw e => (s, Throw e)
    | Normal name =>
        let layer : DesignLayer.t :=
          {| DesignLayer.id := id;
             DesignLayer.type := "typography:text";
             DesignLayer.name := name;
             DesignLayer.visible := true;
             DesignLayer.locked := false;
             DesignLayer.opacity := 1;
             DesignLayer.blendMode := "normal";
             DesignLayer.transform :=
               {| LayerTransform.x := prop input "x" ?? VNum 50;
                  LayerTransform.y := prop input "y" ?? VNum 50;
                  LayerTransform.width := (canvasWidth s - 100)%float;
                  LayerTransform.height := js_mul (prop properties "fontSize") (VNum 2);
                  LayerTransform.rotation := 0;
                  LayerTransform.scaleX := 1;
                  LayerTransform.scaleY := 1;
                  LayerTransform.anchorX := 0;
                  LayerTransform.anchorY := 0 |};
             DesignLayer.properties := properties |} in
        let s := layers_add layer s in
        let s := emitChange "layer-added" s in
        (s, Normal (textResult ("Created text layer '" +:+ id +:+ "' with text "
                                +:+ dquote +:+ ToString text +:+ dquote +:+ ".")))
    end.

Definition applyTextStyle_handler (input : gmap string value) (s : S)
    : S * completion McpToolResult :=
  let layerId := prop input "layerId" in
  match layers_get layerId s with
  | None =>
      (s, Normal (errorResult ("Layer '" +:+ ToString layerId +:+ "' not found.")))
  | Some layer =>
      if negb (String.eqb (DesignLayer.type (layer_read layer s)) "typography:text")
      then (s, Normal (errorResult
                         ("Layer '" +:+ ToString layerId +:+ "' is not a text layer.")))
      else
        let updates : gmap string value :=
          foldl (fun updates key => forward input key key updates) ∅ styleKeys in
        if Nat.eqb (size updates) 0
        then (s, Normal (errorResult "No style properties provided."))
        else
          let s := layers_updateProperties layerId updates s in
          let s := emitChange "layer-updated" s in
          (s, Normal (textResult
                        ("Applied style to text layer '" +:+ ToString layerId +:+ "'.")))
  end.

Definition listFonts_handler (input : gmap string value) (s : S)
    : S * completion McpToolResult :=
  let lines :=
    List.map (fun f =>
                "• " +:+ f.(family) +:+ " — weights: "
                +:+ join ", " (List.map NumberToString f.(weights))
                +:+ " (" +:+ f.(category) +:+ ")")
             BUILT_IN_FONTS in
  (s, Normal (textResult ("Available fonts:" +:+ String LF (join (String LF "") lines)))).

Definition setTextShadow_handler (input : gmap string value) (s : S)
    : S * completion McpToolResult :=
  let layerId := prop input "layerId" in
  match layers_get layerId s with
  | None =>
      (s, Normal (errorResult ("Layer '" +:+ ToString layerId +:+ "' not found.")))
  | Some layer =>
      if negb (String.eqb (DesignLayer.type (layer_read layer s)) "typography:text")
      then (s, Normal (errorResult
                         ("Layer '" +:+ ToString layerId +:+ "' is not a text layer.")))
      else
        let updates : gmap string value := ∅ in
        let updates := forward input "enabled" "shadowEnabled" updates in
        let updates := forward input "color" "shadowColor" updates in
        let updates := forward input "blur" "shadowBlur" updates in
        let updates := forward input "offsetX" "shadowOffsetX" updates in
        let updates := forward input "offsetY" "shadowOffsetY" updates in
        let s := layers_updateProperties layerId updates s in
        let s := emitChange "layer-updated" s in
        let enabled :=
          prop input "enabled"
          ?? prop (DesignLayer.properties (layer_read layer s)) "shadowEnabled" in
        (s, Normal (textResult
                      (if truthy enabled
                       then "Shadow configured on text layer '" +:+ ToString layerId +:+ "'."
                       else "Shadow disabled on text layer '" +:+ ToString layerId +:+ "'.")))
  end.
End Tools.

(** ** The host of the test suite

    A layer store that records the calls made on it, as the mock context
    of the tool tests does: [updateProperties], [updateTransform] and
    [emitChange] only record the call, [add] also stores the layer, and a
    layer object handed out by [get] never changes. *)

Inductive host_call : Type :=
| CallAdd (layer : DesignLayer.t)
| CallUpdateProperties (layerId : value) (updates : gmap string value)
| CallUpdateTransform (layerId : value) (updates : gmap string value)
| CallEmitChange (kind : string).

Record example_state : Type := {
  stored : gmap string DesignLayer.t;
  calls : list host_call;
}.

Definition record_call (c : host_call) (s : example_state) : example_state :=
  {| stored := stored s; calls := calls s ++ [c] |}.

Definition example_context : McpToolContext example_state DesignLayer.t := {|
  layers_get := fun layerId s =>
    match layerId with VStr k => stored s !! k | _ => None end;
  layer_read := fun layer _ => layer;
  layers_add := fun layer s =>
    {| stored := <[DesignLayer.id layer := layer]> (stored s);
       calls := calls s ++ [CallAdd layer] |};
  layers_updateProperties := fun layerId updates =>
    record_call (CallUpdateProperties layerId updates);
  layers_updateTransform := fun layerId updates =>
    record_call (CallUpdateTransform layerId updates);
  emitChange := fun kind => record_call (CallEmitChange kind);
  canvasWidth := fun _ => 800%float;
  Date_now := fun _ => 0%float;
  Math_random := fun _ => 0%float;
  NumberToString36 := fun _ => "0";
|}.

(** [createMockLayer()] of the tool tests. *)
Definition example_layer (type : string) : DesignLayer.t :=
  {| DesignLayer.id := "layer-1";
     DesignLayer.type := type;
     DesignLayer.name := VStr "Test Text";
     DesignLayer.visible := true;
     DesignLayer.locked := false;
     DesignLayer.opacity := 1;
     DesignLayer.blendMode := "normal";
     DesignLayer.transform :=
       {| LayerTransform.x := VNum 50; LayerTransform.y := VNum 50;
          LayerTransform.width := 400; LayerTransform.height := 100;
          LayerTransform.rotation := 0;
          LayerTransform.scaleX := 1; LayerTransform.scaleY := 1;
          LayerTransform.anchorX := 0; LayerTransform.anchorY := 0 |};
     DesignLayer.properties :=
       <["text" := VStr "Hello"]>
         (<["fontFamily" := VStr "Inter"]>
            (<["fontSize" := VNum 48]>
               (<["fontWeight" := VStr "400"]> {[ "color" := VStr "#ffffff" ]}))) |}.

(** A host holding no layer, and a host holding one layer of the given
    type. *)
Definition empty_host : example_state := {| stored := ∅; calls := [] |}.

Definition host_with (type : string) : example_state :=
  {| stored := {[ "layer-1" := example_layer type ]}; calls := [] |}.

(** ** Further observations *)

(** The keys of the violations [validate] returns, in order; none for
    [null]. *)
Definition violations (properties : LayerProperties) : list string :=
  from_option (List.map property) [] (validate properties).

(** The keys the raster renderer reads, and the keys the vector renderer
    reads. *)
Definition RASTER_KEYS : list string :=
  [ "text"; "fontSize"; "fontFamily"; "fontWeight"; "fontStyle"; "color";
    "align"; "baseline"; "lineHeight"; "strokeEnabled"; "strokeColor";
    "strokeWidth"; "shadowEnabled"; "shadowColor"; "shadowBlur";
    "shadowOffsetX"; "shadowOffsetY" ].

Definition VECTOR_KEYS : list string :=
  [ "text"; "fontSize"; "fontFamily"; "fontWeight"; "fontStyle"; "color"; "align" ].

Definition is_shadow_op (op : ctx_op) : bool :=
  match op with
  | SetShadowColor _ | SetShadowBlur _ | SetShadowOffsetX _ | SetShadowOffsetY _ => true
  | _ => false
  end.

(** The descriptor of a key in the schema. *)
Definition descriptor (key : string) : option LayerPropertySchema.t :=
  List.find (fun schema => String.eqb schema.(LayerPropertySchema.key) key)
            TEXT_PROPERTIES.

(** The run-time type a descriptor type stands for. *)
Definition runtime_type (type : string) : string :=
  if String.eqb type "number" then "number"
  else if String.eqb type "boolean" then "boolean"
  else "string".

(** The three replacements of [renderSVG], in the order of the source. *)
Definition escape_chain (s : string) : string :=
  replace_all ">" "&gt;" (replace_all "<" "&lt;" (replace_all "&" "&amp;" s)).

(** The input key [set_text_shadow] reads for a property key of its
    patch. *)
Definition shadow_source (key : string) : option string :=
  if String.eqb "shadowEnabled" key then Some "enabled"
  else if String.eqb "shadowColor" key then Some "color"
  else if String.eqb "shadowBlur" key then Some "blur"
  else if String.eqb "shadowOffsetX" key then Some "offsetX"
  else if String.eqb "shadowOffsetY" key then Some "offsetY"
  else None.

(** The style keys [set_text] takes besides [text]. *)
Definition SET_TEXT_STYLE_KEYS : list string :=
  [ "fontSize"; "fontFamily"; "color"; "align" ].

(** The input object of a tool call, from its entries. *)
Definition input_of (entries : list (string * value)) : gmap string value :=
  list_to_map entries.

(** * Properties *)

(** ** Observations on a sequence of surface operations *)

Definition is_draw (op : ctx_op) : bool :=
  match op with
  | StrokeText _ _ _ | FillText _ _ _ => true
  | _ => false
  end.

Definition is_paint_state (op : ctx_op) : bool :=
  match op with
  | Save | Restore => true
  | _ => false
  end.

(** The draw calls, in order. *)
Definition draws (ops : list ctx_op) : list ctx_op := List.filter is_draw ops.

(** The arguments of the [fillText] calls, in order. *)
Definition fills (ops : list ctx_op) : list (string * float * float) :=
  omap (fun op => match op with
                  | FillText line px py => Some (line, px, py)
                  | _ => None
                  end) ops.

(** The arguments of the [strokeText] calls, in order. *)
Definition strokes (ops : list ctx_op) : list (string * float * float) :=
  omap (fun op => match op with
                  | StrokeText line px py => Some (line, px, py)
                  | _ => None
                  end) ops.

Definition saves (ops : list ctx_op) : nat :=
  length (List.filter (fun op => match op with Save => true | _ => false end) ops).

Definition restores (ops : list ctx_op) : nat :=
  length (List.filter (fun op => match op with Restore => true | _ => false end) ops).

(** Number of occurrences of a code unit in a string. *)
Fixpoint occurrences (c : ascii) (s : string) : nat :=
  match s with
  | EmptyString => 0
  | String a s' => (if Ascii.eqb a c then 1 else 0) + occurrences c s'
  end.

(** ** The anchor and the resolved style, in the specification's words *)

(** [bounds.x] for left, [bounds.x + bounds.width/2] for center,
    [bounds.x + bounds.width] for right; any other value as left. *)
Definition anchor_x (align : value) (bounds : LayerBounds) : float :=
  match align with
  | VStr "center" => (bounds.(x) + bounds.(width) / 2)%float
  | VStr "right" => (bounds.(x) + bounds.(width))%float
  | _ => bounds.(x)
  end.

(** left to start, center to middle, right to end. *)
Definition text_anchor (align : value) : string :=
  match align with
  | VStr "center" => "middle"
  | VStr "right" => "end"
  | _ => "start"
  end.

(** One pass over the text: each of the three markup characters becomes
    its entity, every other character stays. *)
Definition escape_char (c : ascii) : string :=
  if Ascii.eqb c "&" then "&amp;"
  else if Ascii.eqb c "<" then "&lt;"
  else if Ascii.eqb c ">" then "&gt;"
  else String c EmptyString.

Fixpoint escape_markup (s : string) : string :=
  match s with
  | EmptyString => EmptyString
  | String c s' => escape_char c +:+ escape_markup s'
  end.

(** The documented fallback of every styling key (section 4.4, step 1). *)
Definition FALLBACKS : list (string * value) :=
  [ ("text", VStr ""); ("fontSize", VNum 48); ("fontFamily", VStr "Inter");
    ("fontWeight", VStr "400"); ("fontStyle", VStr "normal");
    ("color", VStr "#ffffff"); ("align", VStr "left"); ("baseline", VStr "top");
    ("lineHeight", VNum 1.2); ("strokeEnabled", VBool false);
    ("strokeColor", VStr "#000000"); ("strokeWidth", VNum 2);
    ("shadowEnabled", VBool false); ("shadowColor", VStr "rgba(0,0,0,0.5)");
    ("shadowBlur", VNum 4); ("shadowOffsetX", VNum 2); ("shadowOffsetY", VNum 2) ].

(** A key that is absent, or present holding [undefined] or [null]. *)
Definition nullish (properties : LayerProperties) (k : string) : Prop :=
  prop properties k = VUndefined \/ prop properties k = VNull.

Definition is_string (v : value) : bool :=
  match v with VStr _ => true | _ => false end.

(** The [<text>] element of section 4.5, step 5, from the attribute
    values already rendered as text. *)
Definition svg_text_element
    (ax ay fontFamily fontSize fontWeight fontStyle fill anchor content : string)
    : string :=
  "<text x=" +:+ dquote +:+ ax +:+ dquote
  +:+ " y=" +:+ dquote +:+ ay +:+ dquote
  +:+ " font-family=" +:+ dquote +:+ fontFamily +:+ dquote
  +:+ " font-size=" +:+ dquote +:+ fontSize +:+ dquote
  +:+ " font-weight=" +:+ dquote +:+ fontWeight +:+ dquote
  +:+ " font-style=" +:+ dquote +:+ fontStyle +:+ dquote
  +:+ " fill=" +:+ dquote +:+ fill +:+ dquote
  +:+ " text-anchor=" +:+ dquote +:+ anchor +:+ dquote
  +:+ ">" +:+ content +:+ "</text>".

(** A record that holds, for every descriptor of the schema, its default
    under its key, and nothing else. *)
Definition holds_schema_defaults (o : LayerProperties) : Prop :=
  forall k v,
    o !! k = Some v <->
    exists schema,
      In schema TEXT_PROPERTIES /\
      schema.(LayerPropertySchema.key) = k /\
      schema.(LayerPropertySchema.default) = v.

(** The three checks, as the source decides them. *)
Definition text_valid (properties : LayerProperties) : bool :=
  is_string (prop properties "text").

Definition fontSize_valid (properties : LayerProperties) : bool :=
  match prop properties "fontSize" with
  | VNum n => negb (PrimFloat.ltb n 1) && negb (PrimFloat.ltb 1000 n)
  | _ => false
  end.

Definition fontWeight_valid (properties : LayerProperties) : bool :=
  strict_eq_str (prop properties "fontWeight") "400"
  || strict_eq_str (prop properties "fontWeight") "700".

(** ** The shape of a raster render *)

Section RenderShape.
Context `{JsRuntime}.

(** What one iteration issues for [line] at [(px, py)]. *)
Definition line_ops (px py : float) (stroke : bool)
    (strokeColor strokeWidth color : value) (line : string) : list ctx_op :=
  (if stroke
   then [SetStrokeStyle strokeColor; SetLineWidth strokeWidth;
         SetLineJoin "round"; StrokeText line px py]
   else []) ++ [SetFillStyle color; FillText line px py].

Definition counter_from (i : float) (k : nat) : float :=
  Nat.iter k (fun i => (i + 1)%float) i.

(** The operations between [save] and the line loop. *)
Definition setup_ops (properties : LayerProperties) : list ctx_op :=
  [ SetFont (ToString (prop properties "fontStyle" ?? VStr "normal") +:+ " "
             +:+ ToString (prop properties "fontWeight" ?? VStr "400") +:+ " "
             +:+ ToString (prop properties "fontSize" ?? VNum 48) +:+ "px "
             +:+ resolveFontStack (prop properties "fontFamily" ?? VStr "Inter"));
    SetTextAlign (prop properties "align" ?? VStr "left");
    SetTextBaseline (prop properties "baseline" ?? VStr "top") ]
  ++ (if truthy (prop properties "shadowEnabled" ?? VBool false)
      then [ SetShadowColor (prop properties "shadowColor" ?? VStr "rgba(0,0,0,0.5)");
             SetShadowBlur (prop properties "shadowBlur" ?? VNum 4);
             SetShadowOffsetX (prop properties "shadowOffsetX" ?? VNum 2);
             SetShadowOffsetY (prop properties "shadowOffsetY" ?? VNum 2) ]
      else []).

(** The operations of the line loop on the lines of [t]. *)
Definition loop_ops (properties : LayerProperties) (b : LayerBounds)
    (t : string) : list ctx_op :=
  mjoin (imap (fun k line =>
           line_ops (anchor_x (prop properties "align" ?? VStr "left") b)
             (b.(y) + js_index k
                      * js_mul (prop properties "fontSize" ?? VNum 48)
                               (prop properties "lineHeight" ?? VNum 1.2))%float
             (truthy (prop properties "strokeEnabled" ?? VBool false)
              && js_gt_num (prop properties "strokeWidth" ?? VNum 2) 0)
             (prop properties "strokeColor" ?? VStr "#000000")
             (prop properties "strokeWidth" ?? VNum 2)
             (prop properties "color" ?? VStr "#ffffff") line)
         (split LF t)).

End RenderShape.

(** ** Basic facts *)

Lemma split_length (c : ascii) (s : string) :
  length (split c s) = S (occurrences c s).
Proof.
  induction s as [|a s IH]; simpl; [reflexivity|].
  destruct (Ascii.eqb a c); simpl.
  - by rewrite IH.
  - destruct (split c s) as [|h t] eqn:E; simpl in *; [discriminate|done].
Qed.

(** [align] is the string center, the string right, or a value that
    both renderers treat as left. *)
Lemma align_cases (align : value) (b : LayerBounds) :
  align = VStr "center" \/ align = VStr "right"
  \/ (strict_eq_str align "center" = false /\ strict_eq_str align "right" = false
      /\ anchor_x align b = b.(x) /\ text_anchor align = "start").
Proof.
  destruct align as [| |?|?|s]; try (right; right; done).
  destruct (String.eqb s "center") eqn:E1.
  { apply String.eqb_eq in E1. left. by subst. }
  destruct (String.eqb s "right") eqn:E2.
  { apply String.eqb_eq in E2. right. left. by subst. }
  right. right. split; [exact E1|]. split; [exact E2|].
  apply String.eqb_neq in E1, E2. unfold anchor_x, text_anchor.
  repeat (match goal with
          | |- context [match ?s with EmptyString => _ | String _ _ => _ end] =>
              destruct s; try done
          | |- context [match ?a with Ascii _ _ _ _ _ _ _ _ => _ end] =>
              destruct a as [[] [] [] [] [] [] [] []]; try done
          end).
Qed.

Lemma strict_eq_str_anchor (align : value) (b : LayerBounds) :
  (if strict_eq_str align "center"
   then ("middle", (b.(x) + b.(width) / 2)%float)
   else if strict_eq_str align "right"
   then ("end", (b.(x) + b.(width))%float)
   else ("start", b.(x)))
  = (text_anchor align, anchor_x align b).
Proof.
  destruct (align_cases align b) as [-> | [-> | (E1 & E2 & Hx & Ha)]];
    [reflexivity|reflexivity|].
  by rewrite E1, E2, Hx, Ha.
Qed.

Lemma strict_eq_str_anchor_x (align : value) (b : LayerBounds) :
  (if strict_eq_str align "center" then (b.(x) + b.(width) / 2)%float
   else if strict_eq_str align "right" then (b.(x) + b.(width))%float
   else b.(x)) = anchor_x align b.
Proof.
  destruct (align_cases align b) as [-> | [-> | (E1 & E2 & Hx & Ha)]];
    [reflexivity|reflexivity|].
  by rewrite E1, E2, Hx.
Qed.

Section RenderFacts.
Context `{JsRuntime}.

(** *** The monad of the surface *)

Lemma bind_emit {B} (op : ctx_op) (k : Canvas B) :
  (emit op ;; k) = (op :: k.1, k.2).
Proof. by destruct k. Qed.

Lemma bind_normal {A B} (ops : list ctx_op) (a : A) (f : A -> Canvas B) :
  mbind f ((ops, Normal a) : Canvas A) = (ops ++ (f a).1, (f a).2).
Proof. unfold mbind, canvas_bind. by destruct (f a). Qed.

Lemma bind_throw {A B} (ops : list ctx_op) (e : js_error) (f : A -> Canvas B) :
  mbind f ((ops, Throw e) : Canvas A) = (ops, Throw e).
Proof. reflexivity. Qed.

(** *** The line loop *)

Lemma renderLines_ops b px ls se sc sw col lines i :
  renderLines b px ls se sc sw col lines i =
  (mjoin (imap (fun k line =>
                  line_ops px (b.(y) + counter_from i k * ls)%float
                    (truthy se && js_gt_num sw 0) sc sw col line) lines),
   Normal tt).
Proof.
  revert i. induction lines as [|line rest IH]; intros i; [reflexivity|].
  cbn [renderLines]. rewrite imap_cons. cbn [mjoin list_join].
  rewrite IH. unfold line_ops at 1, counter_from at 1. cbn [Nat.iter].
  assert (Hext : imap ((fun k line0 =>
             line_ops px (b.(y) + counter_from i k * ls)%float
               (truthy se && js_gt_num sw 0) sc sw col line0) ∘ S) rest
          = imap (fun k line0 =>
             line_ops px (b.(y) + counter_from (i + 1)%float k * ls)%float
               (truthy se && js_gt_num sw 0) sc sw col line0) rest).
  { apply imap_ext. intros k l _. unfold compose, counter_from.
    by rewrite Nat.iter_succ_r. }
  rewrite Hext.
  destruct (truthy se && js_gt_num sw 0); reflexivity.
Qed.

Lemma draws_app (l1 l2 : list ctx_op) : draws (l1 ++ l2) = draws l1 ++ draws l2.
Proof. apply List.filter_app. Qed.

Lemma fills_app (l1 l2 : list ctx_op) : fills (l1 ++ l2) = fills l1 ++ fills l2.
Proof. apply omap_app. Qed.

Lemma strokes_app (l1 l2 : list ctx_op) :
  strokes (l1 ++ l2) = strokes l1 ++ strokes l2.
Proof. apply omap_app. Qed.

(** *** The three shapes of a raster render *)

Lemma renderText_falsy properties b :
  truthy (prop properties "text" ?? VStr "") = false ->
  renderText properties b = ([], Normal tt).
Proof. intros Hf. unfold renderText. by rewrite Hf. Qed.

Lemma renderText_string properties b t :
  prop properties "text" ?? VStr "" = VStr t -> t <> "" ->
  renderText properties b
  = (Save :: setup_ops properties ++ loop_ops properties b t ++ [Restore], Normal tt).
Proof.
  intros Ht Hne. unfold renderText. rewrite Ht.
  assert (Htr : truthy (VStr t) = true).
  { simpl. apply negb_true_iff. by apply String.eqb_neq. }
  rewrite Htr. cbn [negb].
  rewrite strict_eq_str_anchor_x.
  unfold setup_ops, loop_ops, when, lift, call_split.
  destruct (truthy (prop properties "shadowEnabled" ?? VBool false));
    unfold mbind, canvas_bind, emit, mret, canvas_ret;
    cbv beta iota zeta; rewrite renderLines_ops; cbv beta iota zeta;
    cbn [app]; rewrite ?app_nil_r; reflexivity.
Qed.

Lemma renderText_not_string properties b :
  truthy (prop properties "text" ?? VStr "") = true ->
  (forall t, prop properties "text" ?? VStr "" <> VStr t) ->
  renderText properties b = (Save :: setup_ops properties, Throw TypeError).
Proof.
  intros Htr Hns. unfold renderText. rewrite Htr. cbn [negb].
  unfold setup_ops, when, lift, call_split.
  destruct (prop properties "text" ?? VStr "") as [| |?|?|t] eqn:Et;
    try discriminate; try (by destruct (Hns t));
    destruct (truthy (prop properties "shadowEnabled" ?? VBool false));
    unfold mbind, canvas_bind, emit, mret, canvas_ret;
    cbv beta iota zeta; cbn [app]; reflexivity.
Qed.
End RenderFacts.

Lemma append_cons (ch : ascii) (a b : string) :
  String ch a +:+ b = String ch (a +:+ b).
Proof. reflexivity. Qed.

Lemma append_assoc (a b c : string) : (a +:+ b) +:+ c = a +:+ (b +:+ c).
Proof.
  induction a as [|ch a IH]; [done|]. by rewrite !append_cons, IH.
Qed.

Lemma replace_all_app (c : ascii) (r a b : string) :
  replace_all c r (a +:+ b) = replace_all c r a +:+ replace_all c r b.
Proof.
  induction a as [|ch a IH]; [done|].
  rewrite append_cons. cbn [replace_all]. rewrite IH.
  destruct (Ascii.eqb ch c); [by rewrite append_assoc|done].
Qed.

Lemma escape_markup_app (a b : string) :
  escape_markup (a +:+ b) = escape_markup a +:+ escape_markup b.
Proof.
  induction a as [|ch a IH]; [done|].
  rewrite append_cons. cbn [escape_markup]. by rewrite IH, append_assoc.
Qed.

(** The three global replacements, in the order of the source, amount to
    the one-pass substitution. *)
Lemma replace_chain_escape_markup (s : string) :
  replace_all ">" "&gt;" (replace_all "<" "&lt;" (replace_all "&" "&amp;" s))
  = escape_markup s.
Proof.
  induction s as [|c s IH]; [done|].
  cbn [replace_all escape_markup]. unfold escape_char.
  destruct (Ascii.eqb c "&") eqn:Eamp.
  - rewrite !replace_all_app, IH. reflexivity.
  - cbn [replace_all]. destruct (Ascii.eqb c "<") eqn:Elt.
    + rewrite !replace_all_app, IH. reflexivity.
    + cbn [replace_all]. destruct (Ascii.eqb c ">") eqn:Egt.
      * by rewrite IH.
      * by rewrite IH.
Qed.

Section RenderSVGFacts.
Context `{JsRuntime}.

Lemma renderSVG_string properties b t :
  prop properties "text" ?? VStr "" = VStr t ->
  renderSVG properties b =
  Normal (svg_text_element
            (NumberToString (anchor_x (prop properties "align" ?? VStr "left") b))
            (ToString (js_add (VNum b.(y)) (prop properties "fontSize" ?? VNum 48)))
            (ToString (prop properties "fontFamily" ?? VStr "Inter"))
            (ToString (prop properties "fontSize" ?? VNum 48))
            (ToString (prop properties "fontWeight" ?? VStr "400"))
            (ToString (prop properties "fontStyle" ?? VStr "normal"))
            (ToString (prop properties "color" ?? VStr "#ffffff"))
            (text_anchor (prop properties "align" ?? VStr "left"))
            (escape_markup t)).
Proof.
  intros Ht. unfold renderSVG. rewrite Ht.
  rewrite strict_eq_str_anchor. unfold call_replace. cbn [mbind completion_bind].
  unfold mret, completion_ret. cbn [ToString].
  rewrite replace_chain_escape_markup. reflexivity.
Qed.

Lemma renderSVG_not_string properties b :
  is_string (prop properties "text" ?? VStr "") = false ->
  renderSVG properties b = Throw TypeError.
Proof.
  intros Hns. unfold renderSVG.
  destruct (prop properties "text" ?? VStr "") as [| |?|?|t]; try discriminate;
    match goal with
    | |- (let '(_, _) := ?p in _) = _ => destruct p
    end; reflexivity.
Qed.
End RenderSVGFacts.

Section RenderClaims.
Context `{JsRuntime}.

(** *** Observations of the setup and of the loop *)

Lemma setup_ops_no_paint_state properties :
  Forall (fun op => is_paint_state op = false) (setup_ops properties).
Proof.
  unfold setup_ops.
  destruct (truthy (prop properties "shadowEnabled" ?? VBool false));
    repeat constructor.
Qed.

Lemma setup_ops_no_draw properties :
  Forall (fun op => is_draw op = false) (setup_ops properties).
Proof.
  unfold setup_ops.
  destruct (truthy (prop properties "shadowEnabled" ?? VBool false));
    repeat constructor.
Qed.

Lemma Forall_not_draw (ops : list ctx_op) :
  Forall (fun op => is_draw op = false) ops ->
  draws ops = [] /\ fills ops = [] /\ strokes ops = [].
Proof.
  induction 1 as [|op ops Hop _ (IH1 & IH2 & IH3)]; [done|].
  change (op :: ops) with ([op] ++ ops).
  rewrite draws_app, fills_app, strokes_app, IH1, IH2, IH3.
  destruct op; try discriminate; done.
Qed.

Lemma line_ops_no_paint_state px py st sc sw col line :
  Forall (fun op => is_paint_state op = false) (line_ops px py st sc sw col line).
Proof. unfold line_ops. destruct st; repeat constructor. Qed.

Lemma mjoin_cons {A} (l : list A) (ls : list (list A)) :
  mjoin (l :: ls) = l ++ mjoin ls.
Proof. reflexivity. Qed.

Lemma Forall_join_imap {A} (P : ctx_op -> Prop) (f : nat -> A -> list ctx_op)
    (lines : list A) :
  (forall k l, Forall P (f k l)) -> Forall P (mjoin (imap f lines)).
Proof.
  revert f. induction lines as [|line rest IH]; intros f Hf; [constructor|].
  rewrite imap_cons, mjoin_cons. apply Forall_app. split.
  - apply Hf.
  - apply IH. intros k l. apply Hf.
Qed.

Lemma loop_ops_no_paint_state properties b t :
  Forall (fun op => is_paint_state op = false) (loop_ops properties b t).
Proof.
  unfold loop_ops. apply Forall_join_imap. intros k l.
  apply line_ops_no_paint_state.
Qed.

Lemma fills_lines px st sc sw col (f : nat -> float) (lines : list string) :
  fills (mjoin (imap (fun k line => line_ops px (f k) st sc sw col line) lines))
  = imap (fun k line => (line, px, f k)) lines.
Proof.
  revert f. induction lines as [|line rest IH]; intros f; [done|].
  rewrite !imap_cons, mjoin_cons. rewrite fills_app.
  specialize (IH (f ∘ S)). unfold compose in *. cbv beta in *.
  rewrite IH. unfold line_ops. destruct st; reflexivity.
Qed.

Lemma strokes_lines px st sc sw col (f : nat -> float) (lines : list string) :
  strokes (mjoin (imap (fun k line => line_ops px (f k) st sc sw col line) lines))
  = if st then imap (fun k line => (line, px, f k)) lines else [].
Proof.
  revert f. induction lines as [|line rest IH]; intros f; [by destruct st|].
  rewrite !imap_cons, mjoin_cons. rewrite strokes_app.
  specialize (IH (f ∘ S)). unfold compose in *. cbv beta in *.
  rewrite IH. unfold line_ops. destruct st; reflexivity.
Qed.

Lemma draws_lines px st sc sw col (f : nat -> float) (lines : list string) :
  draws (mjoin (imap (fun k line => line_ops px (f k) st sc sw col line) lines))
  = mjoin (imap (fun k line =>
                   (if st then [StrokeText line px (f k)] else [])
                   ++ [FillText line px (f k)]) lines).
Proof.
  revert f. induction lines as [|line rest IH]; intros f; [done|].
  rewrite !imap_cons, mjoin_cons. rewrite draws_app.
  specialize (IH (f ∘ S)). unfold compose in *. cbv beta in *.
  rewrite IH. unfold line_ops. destruct st; reflexivity.
Qed.

Lemma count_no_paint_state (ops : list ctx_op) :
  Forall (fun op => is_paint_state op = false) ops ->
  saves ops = 0 /\ restores ops = 0.
Proof.
  unfold saves, restores.
  induction 1 as [|op ops Hop _ [IH1 IH2]]; [done|].
  cbn [List.filter]. destruct op; try discriminate; auto.
Qed.
End RenderClaims.

(** ** Line layout and stroke order *)

Section LineClaims.
Context `{JsRuntime}.

(** C5. When the resolved text is a non-empty string, [renderText]
    returns normally and fills each line of [text.split("\n")] exactly
    once, in order, line [i] at the anchor and at
    [y = bounds.y + i * (fontSize * lineHeight)]; the lines depend on the
    line feeds only, one more line than line feeds.  With two line feeds,
    [fontSize] 24 and [lineHeight] 1.5 there are three fills, at
    [bounds.y + 0], [bounds.y + 36] and [bounds.y + 72]. *)
Theorem renderText_line_layout (properties : LayerProperties) (b : LayerBounds)
    (t : string) :
  prop properties "text" ?? VStr "" = VStr t -> t <> "" ->
  let fontSize := prop properties "fontSize" ?? VNum 48 in
  let lineHeight := prop properties "lineHeight" ?? VNum 1.2 in
  let px := anchor_x (prop properties "align" ?? VStr "left") b in
  (renderText properties b).2 = Normal tt /\
  fills (renderText properties b).1
  = imap (fun i line =>
            (line, px, (b.(y) + js_index i * js_mul fontSize lineHeight)%float))
         (split LF t) /\
  length (fills (renderText properties b).1) = S (occurrences LF t) /\
  (occurrences LF t = 2 -> fontSize = VNum 24 -> lineHeight = VNum 1.5 ->
   (fills (renderText properties b).1).*2
   = [ (b.(y) + 0)%float; (b.(y) + 36)%float; (b.(y) + 72)%float ]).
Proof.
  intros Ht Hne fontSize lineHeight px.
  rewrite (renderText_string properties b t Ht Hne). cbn [fst snd].
  assert (Hfills :
    fills (Save :: setup_ops properties ++ loop_ops properties b t ++ [Restore])
    = imap (fun i line =>
              (line, px, (b.(y) + js_index i * js_mul fontSize lineHeight)%float))
           (split LF t)).
  { change (Save :: ?l) with ([Save] ++ l). rewrite !fills_app.
    destruct (Forall_not_draw _ (setup_ops_no_draw properties)) as (_ & -> & _).
    unfold loop_ops. rewrite fills_lines.
    change (fills [Save]) with (@nil (string * float * float)).
    change (fills [Restore]) with (@nil (string * float * float)).
    by rewrite app_nil_l, app_nil_r. }
  rewrite Hfills. split; [done|]. split; [done|]. split.
  - by rewrite length_imap, split_length.
  - intros Hocc Hfs Hlh. rewrite Hfs, Hlh.
    pose proof (split_length LF t) as Hlen. rewrite Hocc in Hlen.
    destruct (split LF t) as [|l0 [|l1 [|l2 [|l3 rest]]]]; try discriminate.
    vm_compute. reflexivity.
Qed.

(** C8. When the resolved text is a non-empty string, the draw calls of
    [renderText] are, line by line in order: a [strokeText] exactly when
    [strokeEnabled] is truthy and [strokeWidth > 0], immediately followed
    by the [fillText] of the same line at the same coordinates.  So every
    line is filled, a stroke precedes its fill, and there is no stroke
    call at all when the condition fails. *)
Theorem renderText_stroke_under_fill (properties : LayerProperties)
    (b : LayerBounds) (t : string) :
  prop properties "text" ?? VStr "" = VStr t -> t <> "" ->
  let stroke :=
    truthy (prop properties "strokeEnabled" ?? VBool false)
    && js_gt_num (prop properties "strokeWidth" ?? VNum 2) 0 in
  let px := anchor_x (prop properties "align" ?? VStr "left") b in
  let py := fun i : nat =>
    (b.(y) + js_index i
             * js_mul (prop properties "fontSize" ?? VNum 48)
                      (prop properties "lineHeight" ?? VNum 1.2))%float in
  draws (renderText properties b).1
  = mjoin (imap (fun i line =>
                   (if stroke then [StrokeText line px (py i)] else [])
                   ++ [FillText line px (py i)])
                (split LF t)) /\
  strokes (renderText properties b).1
  = (if stroke then fills (renderText properties b).1 else []) /\
  length (fills (renderText properties b).1) = length (split LF t).
Proof.
  intros Ht Hne stroke px py.
  rewrite (renderText_string properties b t Ht Hne). cbn [fst].
  change (Save :: ?l) with ([Save] ++ l).
  rewrite !draws_app, !strokes_app, !fills_app.
  destruct (Forall_not_draw _ (setup_ops_no_draw properties)) as (-> & -> & ->).
  unfold loop_ops. rewrite draws_lines, strokes_lines, fills_lines.
  fold stroke px. cbn [draws strokes fills List.filter is_draw omap list_omap app].
  rewrite !app_nil_r. split; [reflexivity|]. split.
  - by destruct stroke.
  - by rewrite length_imap.
Qed.
End LineClaims.

(** ** Property reads *)

Lemma prop_insert_same (properties : LayerProperties) (k : string) (v : value) :
  prop (<[k := v]> properties) k = v.
Proof. unfold prop. by rewrite lookup_insert_eq. Qed.

Lemma prop_insert_other (properties : LayerProperties) (k k' : string) (v : value) :
  k <> k' -> prop (<[k := v]> properties) k' = prop properties k'.
Proof. intros Hne. unfold prop. by rewrite lookup_insert_ne. Qed.

Lemma prop_delete_same (properties : LayerProperties) (k : string) :
  prop (delete k properties) k = VUndefined.
Proof. unfold prop. by rewrite lookup_delete_eq. Qed.

Lemma prop_delete_other (properties : LayerProperties) (k k' : string) :
  k <> k' -> prop (delete k properties) k' = prop properties k'.
Proof. intros Hne. unfold prop. by rewrite lookup_delete_ne. Qed.

Lemma saves_app (l1 l2 : list ctx_op) : saves (l1 ++ l2) = saves l1 + saves l2.
Proof. unfold saves. by rewrite List.filter_app, length_app. Qed.

Lemma restores_app (l1 l2 : list ctx_op) :
  restores (l1 ++ l2) = restores l1 + restores l2.
Proof. unfold restores. by rewrite List.filter_app, length_app. Qed.

(** ** Completion and the paint-state scope *)

Section CompletionClaims.
Context `{JsRuntime}.

(** The resolved text is falsy, a non-empty string, or a truthy value
    without a [split] method. *)
Lemma text_cases (v : value) :
  truthy v = false
  \/ (exists t, v = VStr t /\ t <> "")
  \/ (truthy v = true /\ is_string v = false).
Proof.
  destruct v as [| |bv|n|t]; cbn [truthy is_string]; auto.
  - destruct bv; auto.
  - destruct (negb (PrimFloat.eqb n 0) && PrimFloat.eqb n n); auto.
  - destruct (String.eqb_spec t ""); cbn [negb]; eauto.
Qed.

(** C3, amended. [renderText] has three shapes.  On a falsy resolved
    text (the empty string among them) it issues no operation at all.
    On a non-empty string it returns normally after exactly one [save],
    issued first, and exactly one [restore], issued last.  On a truthy
    value that is not a string it issues its one [save] and then throws
    a [TypeError], without any [restore]. *)
Theorem renderText_paint_state_scope (properties : LayerProperties)
    (b : LayerBounds) :
  let text := prop properties "text" ?? VStr "" in
  let ops := (renderText properties b).1 in
  let result := (renderText properties b).2 in
  (truthy text = false /\ ops = [] /\ result = Normal tt)
  \/ (exists t body,
        text = VStr t /\ t <> "" /\
        ops = Save :: body ++ [Restore] /\ result = Normal tt /\
        Forall (fun op => is_paint_state op = false) body /\
        saves ops = 1 /\ restores ops = 1)
  \/ (exists body,
        truthy text = true /\ is_string text = false /\
        ops = Save :: body /\ result = Throw TypeError /\
        Forall (fun op => is_paint_state op = false) body /\
        saves ops = 1 /\ restores ops = 0).
Proof.
  intros text ops result. subst ops result.
  destruct (text_cases text) as [Hf | [(t & Ht & Hne) | (Htr & Hns)]].
  - left. by rewrite (renderText_falsy properties b Hf).
  - right. left. exists t, (setup_ops properties ++ loop_ops properties b t).
    rewrite (renderText_string properties b t Ht Hne). cbn [fst snd].
    rewrite (app_assoc (setup_ops properties)).
    assert (Hbody : Forall (fun op => is_paint_state op = false)
                      (setup_ops properties ++ loop_ops properties b t)).
    { apply Forall_app. split.
      - apply setup_ops_no_paint_state.
      - apply loop_ops_no_paint_state. }
    destruct (count_no_paint_state _ Hbody) as [Hs Hr].
    repeat split; try done.
    + change (Save :: ?l) with ([Save] ++ l).
      by rewrite (saves_app [Save]), ?(saves_app _ [Restore]), Hs.
    + change (Save :: ?l) with ([Save] ++ l).
      by rewrite (restores_app [Save]), ?(restores_app _ [Restore]), Hr.
  - right. right. exists (setup_ops properties).
    assert (Hns' : forall t, text <> VStr t).
    { intros t Ht. rewrite Ht in Hns. discriminate. }
    rewrite (renderText_not_string properties b Htr Hns'). cbn [fst snd].
    pose proof (setup_ops_no_paint_state properties) as Hbody.
    destruct (count_no_paint_state _ Hbody) as [Hs Hr].
    repeat split; try done;
      change (Save :: ?l) with ([Save] ++ l);
      by rewrite ?(saves_app [Save]), ?(restores_app [Save]), ?Hs, ?Hr.
Qed.

(** C1, amended. [validate] and [createDefault] always complete.
    [renderText] completes without throwing exactly when the resolved
    text is falsy or a string, and [renderSVG] exactly when it is a
    string; on any other resolved text they throw a [TypeError]. *)
Theorem core_operations_completion (properties : LayerProperties)
    (b : LayerBounds) :
  let text := prop properties "text" ?? VStr "" in
  completes (renderText properties b).2 = negb (truthy text) || is_string text /\
  completes (renderSVG properties b) = is_string text /\
  (exists r, validate properties = r) /\
  (forall h, exists l h', createDefault h = (l, h')).
Proof.
  intros text. split; [|split; [|split]].
  - destruct (text_cases text) as [Hf | [(t & Ht & Hne) | (Htr & Hns)]].
    + rewrite (renderText_falsy properties b Hf). fold text. by rewrite Hf.
    + rewrite (renderText_string properties b t Ht Hne).
      fold text. rewrite Ht. cbn [snd completes is_string]. by rewrite orb_true_r.
    + assert (Hns' : forall t, text <> VStr t).
      { intros t Ht. rewrite Ht in Hns. discriminate. }
      rewrite (renderText_not_string properties b Htr Hns').
      fold text. by rewrite Htr, Hns.
  - destruct (is_string text) eqn:Hs.
    + destruct text as [| |?|?|t] eqn:Ht; try discriminate.
      by rewrite (renderSVG_string properties b t Ht).
    + by rewrite (renderSVG_not_string properties b Hs).
  - eauto.
  - intros h. destruct (createDefault h) as [l h'] eqn:E. eauto.
Qed.
End CompletionClaims.

(** ** Fallback resolution *)

Section FallbackClaims.
Context `{JsRuntime}.

(** C2, amended. A styling key resolves to its documented fallback when
    it is absent or holds [undefined] or [null], and only then: the
    render is the one obtained with the key missing, and the one obtained
    with the key holding its fallback.  (A present value of any other
    type is used as it is.) *)
Theorem renderText_nullish_key_falls_back (properties : LayerProperties)
    (b : LayerBounds) (k : string) (d : value) :
  In (k, d) FALLBACKS -> nullish properties k ->
  renderText properties b = renderText (delete k properties) b /\
  renderText properties b = renderText (<[k := d]> properties) b.
Proof.
  intros Hin Hnull. unfold nullish in Hnull.
  cbn [In FALLBACKS] in Hin.
  repeat (destruct Hin as [Hin | Hin];
          [ injection Hin as <- <-; unfold renderText;
            rewrite ?prop_delete_same, ?prop_insert_same;
            rewrite ?prop_delete_other, ?prop_insert_other by done;
            destruct Hnull as [-> | ->]; split; reflexivity
          | ]).
  destruct Hin.
Qed.
End FallbackClaims.

(** ** Closed examples *)

(** C1, counterexample: a number stored under [text] makes [renderText]
    throw at [text.split], after the surface was saved and set up. *)
Lemma renderText_numeric_text_throws :
  @renderText example_runtime (<["text" := VNum 42]> defaults) BOUNDS
  = ([Save; SetFont default_font; SetTextAlign (VStr "left");
      SetTextBaseline (VStr "top")],
     Throw TypeError).
Proof. vm_compute. reflexivity. Qed.

(** C2, counterexample: [strokeEnabled] holding a string is not replaced
    by [false]; the string is truthy and the line is stroked, while the
    same record without the key draws no stroke. *)
Lemma renderText_mistyped_strokeEnabled_strokes :
  strokes (@renderText example_runtime
             (<["strokeEnabled" := VStr "yes"]> (example_text "Outlined")) BOUNDS).1
  = [("Outlined", 10%float, 20%float)]
  /\ strokes (@renderText example_runtime
                (delete "strokeEnabled"
                   (<["strokeEnabled" := VStr "yes"]> (example_text "Outlined")))
                BOUNDS).1
     = [].
Proof. split; vm_compute; reflexivity. Qed.

(** C2, witness: [strokeEnabled] holding [null]. *)
Lemma renderText_nullish_key_falls_back_witness :
  @renderText example_runtime
    (<["strokeEnabled" := VNull]> (example_text "Outlined")) BOUNDS
  = @renderText example_runtime
      (delete "strokeEnabled" (<["strokeEnabled" := VNull]> (example_text "Outlined")))
      BOUNDS
  /\ @renderText example_runtime
       (<["strokeEnabled" := VNull]> (example_text "Outlined")) BOUNDS
     = @renderText example_runtime
         (<["strokeEnabled" := VBool false]>
            (<["strokeEnabled" := VNull]> (example_text "Outlined")))
         BOUNDS.
Proof.
  apply (@renderText_nullish_key_falls_back example_runtime).
  - cbn [In FALLBACKS]. do 9 right. left. reflexivity.
  - right. vm_compute. reflexivity.
Defined.

(** C3, counterexample: with [true] stored under [text] the surface is
    saved once and never restored; the call ends in a [TypeError]. *)
Lemma renderText_boolean_text_skips_restore :
  saves (@renderText example_runtime (<["text" := VBool true]> defaults) BOUNDS).1 = 1
  /\ restores (@renderText example_runtime (<["text" := VBool true]> defaults) BOUNDS).1 = 0
  /\ (@renderText example_runtime (<["text" := VBool true]> defaults) BOUNDS).2
     = Throw TypeError.
Proof. repeat split; vm_compute; reflexivity. Qed.

(** C5, witness: the three-line render of the test suite. *)
Lemma renderText_line_layout_witness :
  (@renderText example_runtime example_multiline BOUNDS).2 = Normal tt
  /\ fills (@renderText example_runtime example_multiline BOUNDS).1
     = [("Line 1", 10%float, 20%float); ("Line 2", 10%float, 56%float);
        ("Line 3", 10%float, 92%float)]
  /\ (fills (@renderText example_runtime example_multiline BOUNDS).1).*2
     = [ (20 + 0)%float; (20 + 36)%float; (20 + 72)%float ].
Proof.
  destruct (@renderText_line_layout example_runtime example_multiline BOUNDS three_lines)
    as (Hret & Hfills & _ & Hys).
  - vm_compute. reflexivity.
  - discriminate.
  - split; [exact Hret|]. split.
    + rewrite Hfills. vm_compute. reflexivity.
    + apply Hys; vm_compute; reflexivity.
Defined.

(** C8, witness: the outlined render of the test suite strokes the line
    and then fills it at the same point. *)
Lemma renderText_stroke_under_fill_witness :
  draws (@renderText example_runtime example_outlined BOUNDS).1
  = [StrokeText "Outlined" 10 20; FillText "Outlined" 10 20]
  /\ draws (@renderText example_runtime (example_text "Outlined") BOUNDS).1
     = [FillText "Outlined" 10 20].
Proof.
  split.
  - destruct (@renderText_stroke_under_fill example_runtime example_outlined BOUNDS
                "Outlined") as (Hdraws & _).
    + vm_compute. reflexivity.
    + discriminate.
    + rewrite Hdraws. vm_compute. reflexivity.
  - destruct (@renderText_stroke_under_fill example_runtime (example_text "Outlined")
                BOUNDS "Outlined") as (Hdraws & _).
    + vm_compute. reflexivity.
    + discriminate.
    + rewrite Hdraws. vm_compute. reflexivity.
Defined.

(** ** Vector renderer *)

Lemma prefix_append (a b : string) : String.prefix a (a +:+ b) = true.
Proof.
  induction a as [|c a IH]; [by destruct b|].
  rewrite append_cons. cbn [String.prefix].
  destruct (ascii_dec c c); [exact IH|done].
Qed.

Lemma includes_append (pre sub post : string) :
  includes (pre +:+ sub +:+ post) sub = true.
Proof.
  induction pre as [|c pre IH].
  - change ("" +:+ sub +:+ post) with (sub +:+ post).
    destruct (sub +:+ post) eqn:E; cbn [includes];
      rewrite <- E, prefix_append; reflexivity.
  - rewrite append_cons. cbn [includes]. rewrite IH. apply orb_true_r.
Qed.

(** The element, cut around its [fill] attribute. *)
Lemma svg_text_element_fill
    (ax ay fontFamily fontSize fontWeight fontStyle fill anchor content : string) :
  svg_text_element ax ay fontFamily fontSize fontWeight fontStyle fill anchor content
  = ("<text x=" +:+ dquote +:+ ax +:+ dquote
     +:+ " y=" +:+ dquote +:+ ay +:+ dquote
     +:+ " font-family=" +:+ dquote +:+ fontFamily +:+ dquote
     +:+ " font-size=" +:+ dquote +:+ fontSize +:+ dquote
     +:+ " font-weight=" +:+ dquote +:+ fontWeight +:+ dquote
     +:+ " font-style=" +:+ dquote +:+ fontStyle +:+ dquote)
    +:+ (" fill=" +:+ dquote +:+ fill +:+ dquote +:+ " text-anchor=")
    +:+ (dquote +:+ anchor +:+ dquote +:+ ">" +:+ content +:+ "</text>").
Proof. unfold svg_text_element. by rewrite !append_assoc. Qed.

Section VectorClaims.
Context `{JsRuntime}.

Lemma draws_at_anchor (ax : float) (ops : list ctx_op) :
  Forall (fun op => is_draw op = false) ops ->
  Forall (fun op => match op with
                    | StrokeText _ px _ | FillText _ px _ => px = ax
                    | _ => True
                    end) ops.
Proof.
  intros Hops. eapply Forall_impl; [exact Hops|].
  intros op Hop. destruct op; try done; discriminate.
Qed.

(** The x-coordinates of the calls of a loop that draws every line at
    [px]. *)
Lemma anchor_of_each_line (px : float) (f : nat -> float) (lines : list string) :
  (imap (fun k line => (line, px, f k)) lines).*1.*2 = replicate (length lines) px.
Proof.
  revert f. induction lines as [|line rest IH]; intros f; [done|].
  rewrite imap_cons. cbn [fmap list_fmap length replicate fst snd]. f_equal.
  apply (IH (f ∘ S)).
Qed.

(** C6. Every draw call of [renderText] is issued at the anchor
    [anchor_x align bounds], and the calls are issued: on a non-empty
    string text there is one [fillText] for each line, so at least one,
    each at the anchor, and as many [strokeText] calls at the anchor when
    the stroke is on; on any other text nothing is drawn.  The [x]
    attribute of [renderSVG] is the rendering of that same number, next
    to the [text-anchor] keyword of the same [align]:
    [bounds.x + bounds.width/2] and [middle] for center,
    [bounds.x + bounds.width] and [end] for right, [bounds.x] and [start]
    for left and for any other value. *)
Theorem anchor_shared_by_both_renderers (properties : LayerProperties)
    (b : LayerBounds) :
  let align := prop properties "align" ?? VStr "left" in
  let stroke :=
    truthy (prop properties "strokeEnabled" ?? VBool false)
    && js_gt_num (prop properties "strokeWidth" ?? VNum 2) 0 in
  Forall (fun op => match op with
                    | StrokeText _ px _ | FillText _ px _ => px = anchor_x align b
                    | _ => True
                    end) (renderText properties b).1 /\
  match prop properties "text" ?? VStr "" with
  | VStr t =>
      let lines := if String.eqb t "" then 0 else S (occurrences LF t) in
      (fills (renderText properties b).1).*1.*2
      = replicate lines (anchor_x align b) /\
      (strokes (renderText properties b).1).*1.*2
      = replicate (if stroke then lines else 0) (anchor_x align b)
  | _ => draws (renderText properties b).1 = []
  end /\
  match prop properties "text" ?? VStr "" with
  | VStr t =>
      exists ay fontFamily fontSize fontWeight fontStyle fill,
        renderSVG properties b
        = Normal (svg_text_element (NumberToString (anchor_x align b)) ay
                    fontFamily fontSize fontWeight fontStyle fill
                    (text_anchor align) (escape_markup t))
  | _ => renderSVG properties b = Throw TypeError
  end /\
  (align = VStr "center" ->
   anchor_x align b = (b.(x) + b.(width) / 2)%float /\ text_anchor align = "middle") /\
  (align = VStr "right" ->
   anchor_x align b = (b.(x) + b.(width))%float /\ text_anchor align = "end") /\
  (align <> VStr "center" -> align <> VStr "right" ->
   anchor_x align b = b.(x) /\ text_anchor align = "start").
Proof.
  intros align stroke. split; [|split; [|split; [|split; [|split]]]].
  - destruct (text_cases (prop properties "text" ?? VStr ""))
      as [Hf | [(t & Ht & Hne) | (Htr & Hns)]].
    + rewrite (renderText_falsy properties b Hf). constructor.
    + rewrite (renderText_string properties b t Ht Hne). cbn [fst].
      constructor; [done|]. apply Forall_app. split.
      { apply draws_at_anchor, setup_ops_no_draw. }
      apply Forall_app. split; [|by repeat constructor].
      unfold loop_ops. apply Forall_join_imap. intros k l.
      unfold line_ops. fold align.
      destruct (truthy _ && _); by repeat constructor.
    + assert (Hns' : forall t, prop properties "text" ?? VStr "" <> VStr t).
      { intros t Ht. rewrite Ht in Hns. discriminate. }
      rewrite (renderText_not_string properties b Htr Hns'). cbn [fst].
      constructor; [done|]. apply draws_at_anchor, setup_ops_no_draw.
  - destruct (text_cases (prop properties "text" ?? VStr ""))
      as [Hf | [(t & Ht & Hne) | (Htr & Hns)]].
    + rewrite (renderText_falsy properties b Hf). cbn [fst].
      destruct (prop properties "text" ?? VStr "") as [| |?|?|t]; try done.
      cbn [truthy] in Hf. apply negb_false_iff in Hf. rewrite Hf.
      cbv zeta. split; [done|]. by destruct stroke.
    + rewrite Ht, (renderText_string properties b t Ht Hne). cbn [fst].
      apply String.eqb_neq in Hne. rewrite Hne.
      change (Save :: ?l) with ([Save] ++ l).
      rewrite !strokes_app, !fills_app.
      destruct (Forall_not_draw _ (setup_ops_no_draw properties)) as (_ & -> & ->).
      unfold loop_ops. rewrite strokes_lines, fills_lines.
      fold align stroke.
      change (fills [Save]) with (@nil (string * float * float)).
      change (fills [Restore]) with (@nil (string * float * float)).
      change (strokes [Save]) with (@nil (string * float * float)).
      change (strokes [Restore]) with (@nil (string * float * float)).
      rewrite !app_nil_l, !app_nil_r. cbv zeta.
      rewrite <- (split_length LF t). split; [apply anchor_of_each_line|].
      destruct stroke; [apply anchor_of_each_line|done].
    + assert (Hns' : forall t, prop properties "text" ?? VStr "" <> VStr t).
      { intros t Ht. rewrite Ht in Hns. discriminate. }
      rewrite (renderText_not_string properties b Htr Hns'). cbn [fst].
      destruct (prop properties "text" ?? VStr "") as [| |?|?|t];
        try discriminate;
        change (Save :: ?l) with ([Save] ++ l); rewrite draws_app;
        by destruct (Forall_not_draw _ (setup_ops_no_draw properties)) as (-> & _).
  - destruct (prop properties "text" ?? VStr "") as [| |?|?|t] eqn:Ht;
      try (by apply renderSVG_not_string; rewrite Ht).
    rewrite (renderSVG_string properties b t Ht). fold align. eauto 10.
  - by intros ->.
  - by intros ->.
  - intros Hc Hr.
    destruct (align_cases align b) as [Ha | [Ha | (_ & _ & Hx & Ha)]]; done.
Qed.

(** C7. When the resolved text is a string, the content of the element
    [renderSVG] returns is the text with [&], [<] and [>] replaced by
    [&amp;], [&lt;] and [&gt;] in one pass, every other character kept:
    the three global replacements of the source, ampersand first, amount
    to that pass, so no entity is escaped again.  Text containing
    [<script>&test] yields content containing
    [&lt;script&gt;&amp;test]. *)
Theorem renderSVG_escapes_markup (properties : LayerProperties)
    (b : LayerBounds) (t : string) :
  prop properties "text" ?? VStr "" = VStr t ->
  (exists ax ay fontFamily fontSize fontWeight fontStyle fill anchor,
     renderSVG properties b
     = Normal (svg_text_element ax ay fontFamily fontSize fontWeight fontStyle
                 fill anchor (escape_markup t))) /\
  replace_all ">" "&gt;" (replace_all "<" "&lt;" (replace_all "&" "&amp;" t))
  = escape_markup t /\
  (forall pre post, t = pre +:+ "<script>&test" +:+ post ->
     escape_markup t
     = escape_markup pre +:+ "&lt;script&gt;&amp;test" +:+ escape_markup post).
Proof.
  intros Ht. split; [|split].
  - rewrite (renderSVG_string properties b t Ht). eauto 12.
  - apply replace_chain_escape_markup.
  - intros pre post ->. by rewrite !escape_markup_app.
Qed.

(** C10. When the resolved text is a string, [renderSVG] places the
    resolved [fontFamily], [fontWeight], [fontStyle] and [color] between
    the double quotes of their attributes as they are; only the content
    is escaped.  There is a record whose [color] contains a double quote
    and whose element contains that [color], quote included, as the value
    of [fill]. *)
Theorem renderSVG_attributes_verbatim :
  (forall (properties : LayerProperties) (b : LayerBounds) (t : string),
     prop properties "text" ?? VStr "" = VStr t ->
     exists ax ay fontSize anchor,
       renderSVG properties b
       = Normal (svg_text_element ax ay
                   (ToString (prop properties "fontFamily" ?? VStr "Inter"))
                   fontSize
                   (ToString (prop properties "fontWeight" ?? VStr "400"))
                   (ToString (prop properties "fontStyle" ?? VStr "normal"))
                   (ToString (prop properties "color" ?? VStr "#ffffff"))
                   anchor (escape_markup t))) /\
  (exists (properties : LayerProperties) (color s : string),
     prop properties "color" = VStr color /\
     includes color dquote = true /\
     renderSVG properties BOUNDS = Normal s /\
     includes s (" fill=" +:+ dquote +:+ color +:+ dquote +:+ " text-anchor=") = true).
Proof.
  split.
  - intros properties b t Ht. rewrite (renderSVG_string properties b t Ht). eauto 8.
  - pose (color := "red" +:+ dquote +:+ " onload=" +:+ dquote +:+ "alert(1)").
    pose (properties := <["color" := VStr color]> defaults).
    assert (Ht : prop properties "text" ?? VStr "" = VStr "Hello World")
      by (vm_compute; reflexivity).
    eexists properties, color, _. split; [by vm_compute|]. split; [by vm_compute|].
    split; [apply (renderSVG_string properties BOUNDS _ Ht)|].
    assert (Hc : prop properties "color" ?? VStr "#ffffff" = VStr color)
      by (vm_compute; reflexivity).
    rewrite Hc. cbn [ToString]. rewrite svg_text_element_fill.
    apply includes_append.
Qed.
End VectorClaims.

(** C7, witness: the escaping test of the suite. *)
Lemma renderSVG_escapes_markup_witness :
  @renderSVG example_runtime (example_text "<script>&test") BOUNDS
  = Normal (svg_text_element "10" "68" "Inter" "48" "400" "normal" "#ffffff"
              "start" "&lt;script&gt;&amp;test")
  /\ replace_all ">" "&gt;"
       (replace_all "<" "&lt;" (replace_all "&" "&amp;" "<script>&test"))
     = escape_markup "<script>&test".
Proof.
  destruct (@renderSVG_escapes_markup example_runtime
              (example_text "<script>&test") BOUNDS "<script>&test")
    as (_ & Hchain & _).
  - vm_compute. reflexivity.
  - split; [vm_compute; reflexivity|exact Hchain].
Defined.

(** C6, witness: the centered render of the test suite draws its one
    line at [10 + 400 / 2], the [x] of its element. *)
Lemma anchor_shared_by_both_renderers_witness :
  (fills (@renderText example_runtime
            (<["align" := VStr "center"]> defaults) BOUNDS).1).*1.*2
  = [210%float]
  /\ exists ay fontFamily fontSize fontWeight fontStyle fill,
       @renderSVG example_runtime (<["align" := VStr "center"]> defaults) BOUNDS
       = Normal (svg_text_element "210" ay fontFamily fontSize fontWeight
                   fontStyle fill "middle" "Hello World").
Proof.
  destruct (@anchor_shared_by_both_renderers example_runtime
              (<["align" := VStr "center"]> defaults) BOUNDS)
    as (_ & Hdraw & Hsvg & _).
  split.
  - exact (proj1 Hdraw).
  - exact Hsvg.
Defined.

(** The centered render of the test suite: both renderers anchor at
    [10 + 400 / 2]. *)
Example centered_anchor_example :
  fills (@renderText example_runtime (<["align" := VStr "center"]> defaults) BOUNDS).1
  = [("Hello World", 210%float, 20%float)]
  /\ @renderSVG example_runtime (<["align" := VStr "center"]> defaults) BOUNDS
     = Normal (svg_text_element "210" "68" "Inter" "48" "400" "normal" "#ffffff"
                 "middle" "Hello World").
Proof. split; vm_compute; reflexivity. Qed.

(** A [color] holding a double quote closes the [fill] attribute. *)
Example quoted_color_example :
  @renderSVG example_runtime
    (<["color" := VStr ("red" +:+ dquote +:+ " onload=" +:+ dquote +:+ "alert(1)")]>
       defaults) BOUNDS
  = Normal ("<text x=" +:+ dquote +:+ "10" +:+ dquote
            +:+ " y=" +:+ dquote +:+ "68" +:+ dquote
            +:+ " font-family=" +:+ dquote +:+ "Inter" +:+ dquote
            +:+ " font-size=" +:+ dquote +:+ "48" +:+ dquote
            +:+ " font-weight=" +:+ dquote +:+ "400" +:+ dquote
            +:+ " font-style=" +:+ dquote +:+ "normal" +:+ dquote
            +:+ " fill=" +:+ dquote +:+ "red" +:+ dquote
            +:+ " onload=" +:+ dquote +:+ "alert(1)" +:+ dquote
            +:+ " text-anchor=" +:+ dquote +:+ "start" +:+ dquote
            +:+ ">Hello World</text>").
Proof. vm_compute. reflexivity. Qed.

(** ** Default construction *)

Lemma store_insert (l : positive) (k : string) (v : value)
    (o : LayerProperties) (h : gmap positive (gmap string value)) :
  store l k v (<[l := o]> h) = <[l := <[k := v]> o]> h.
Proof. unfold store. by rewrite alter_insert_eq. Qed.

Lemma foldl_store (l : positive) (schemas : list LayerPropertySchema.t)
    (o : LayerProperties) (h : gmap positive (gmap string value)) :
  foldl (fun h schema =>
           store l schema.(LayerPropertySchema.key)
             schema.(LayerPropertySchema.default) h)
        (<[l := o]> h) schemas
  = <[l := foldl (fun o schema =>
                    <[schema.(LayerPropertySchema.key)
                      := schema.(LayerPropertySchema.default)]> o)
                 o schemas]> h.
Proof.
  revert o. induction schemas as [|s rest IH]; intros o; [done|].
  cbn [foldl]. by rewrite store_insert, IH.
Qed.

Lemma createDefault_fresh (h : gmap positive (gmap string value)) :
  createDefault h = (fresh (dom h), <[fresh (dom h) := defaults]> h).
Proof. unfold createDefault, alloc, defaults. by rewrite foldl_store. Qed.

Lemma foldl_insert_lookup (schemas : list LayerPropertySchema.t)
    (o : LayerProperties) (k : string) (v : value) :
  foldl (fun o schema =>
           <[schema.(LayerPropertySchema.key)
             := schema.(LayerPropertySchema.default)]> o)
        o schemas !! k = Some v ->
  (exists schema,
     In schema schemas /\
     schema.(LayerPropertySchema.key) = k /\
     schema.(LayerPropertySchema.default) = v)
  \/ o !! k = Some v.
Proof.
  revert o. induction schemas as [|s rest IH]; intros o Hk; [by right|].
  cbn [foldl] in Hk. apply IH in Hk as [(schema & Hin & Hkv) | Hk].
  - left. exists schema. split; [by right|done].
  - apply lookup_insert_Some in Hk as [[Hkey Hval] | [_ Hk]].
    + left. exists s. split; [by left|done].
    + by right.
Qed.

Lemma defaults_hold : holds_schema_defaults defaults.
Proof.
  intros k v. split.
  - intros Hk. apply foldl_insert_lookup in Hk as [Hk | Hk]; [done|].
    by rewrite lookup_empty in Hk.
  - intros (schema & Hin & <- & <-).
    cbn [In TEXT_PROPERTIES] in Hin.
    repeat (destruct Hin as [<- | Hin]; [vm_compute; reflexivity|]).
    destruct Hin.
Qed.

(** C9. [createDefault] returns a new object that holds exactly the
    defaults of the schema, one entry per descriptor key, and leaves the
    objects already allocated as they were.  Two calls return different
    objects with equal contents, and writing a property of the first
    leaves the second unchanged. *)
Theorem createDefault_fresh_independent (h : heap) :
  let first := createDefault h in
  let second := createDefault first.2 in
  h !! first.1 = None /\
  (forall l, l <> first.1 -> first.2 !! l = h !! l) /\
  (exists o,
     first.2 !! first.1 = Some o /\ holds_schema_defaults o /\
     size o = length TEXT_PROPERTIES /\
     NoDup (List.map LayerPropertySchema.key TEXT_PROPERTIES)) /\
  first.1 <> second.1 /\
  (exists o,
     second.2 !! first.1 = Some o /\ second.2 !! second.1 = Some o /\
     forall k v,
       store first.1 k v second.2 !! second.1 = Some o /\
       store first.1 k v second.2 !! first.1 = Some (<[k := v]> o)).
Proof.
  intros first second. subst second first. rewrite !createDefault_fresh.
  cbn [fst snd].
  set (l1 := fresh (dom h)).
  set (h1 := <[l1 := defaults]> h).
  set (l2 := fresh (dom h1)).
  assert (Hl1 : h !! l1 = None).
  { apply not_elem_of_dom. apply is_fresh. }
  assert (Hl2 : h1 !! l2 = None).
  { apply not_elem_of_dom. apply is_fresh. }
  assert (Hne : l1 <> l2).
  { intros Heq. rewrite <- Heq in Hl2. unfold h1 in Hl2.
    by rewrite lookup_insert_eq in Hl2. }
  split; [exact Hl1|]. split.
  { intros l Hl. unfold h1. by rewrite lookup_insert_ne. }
  split.
  { exists defaults. split; [unfold h1; by rewrite lookup_insert_eq|].
    split; [apply defaults_hold|]. split; [vm_compute; reflexivity|].
    cbn [List.map TEXT_PROPERTIES LayerPropertySchema.key].
    apply (bool_decide_unpack _). vm_compute. reflexivity. }
  split; [exact Hne|].
  exists defaults. split.
  { rewrite lookup_insert_ne by done. unfold h1. by rewrite lookup_insert_eq. }
  split; [by rewrite lookup_insert_eq|].
  intros k v. unfold store. split.
  - rewrite lookup_alter_ne by done. by rewrite lookup_insert_eq.
  - rewrite lookup_alter_eq. rewrite lookup_insert_ne by done.
    unfold h1. by rewrite lookup_insert_eq.
Qed.

(** ** Validation *)

(** [validate] reports the failing checks, in the order text, fontSize,
    fontWeight, and returns [null] when none fails. *)
Lemma validate_violations (properties : LayerProperties) :
  from_option (List.map property) [] (validate properties)
  = (if text_valid properties then [] else ["text"])
    ++ (if fontSize_valid properties then [] else ["fontSize"])
    ++ (if fontWeight_valid properties then [] else ["fontWeight"])
  /\ (validate properties = None <->
      text_valid properties = true /\ fontSize_valid properties = true
      /\ fontWeight_valid properties = true).
Proof.
  unfold validate, text_valid, fontSize_valid, fontWeight_valid.
  destruct (prop properties "text") as [| |tb|tn|ts];
    destruct (prop properties "fontSize") as [| |fb|fn|fs];
    try destruct (PrimFloat.ltb fn 1); try destruct (PrimFloat.ltb 1000 fn);
    destruct (strict_eq_str (prop properties "fontWeight") "400");
    destruct (strict_eq_str (prop properties "fontWeight") "700");
    cbn; (split; [reflexivity|]); split; try done; intros (? & ? & ?); done.
Qed.

Lemma validate_defaults : validate defaults = None.
Proof. vm_compute. reflexivity. Qed.

(** On every number that is not [NaN] the source's two comparisons decide
    membership in [[1, 1000]]. *)
Lemma SFcompare_antisym (a c : spec_float) :
  SFcompare c a = option_map CompOpp (SFcompare a c).
Proof.
  destruct a as [sa|sa| |sa ma ea], c as [sc|sc| |sc mc ec];
    try destruct sa; try destruct sc; cbn; try reflexivity.
  all: rewrite (Z.compare_antisym ea ec); destruct (ea ?= ec)%Z; cbn;
    try reflexivity.
  all: rewrite ?Pos.compare_cont_antisym; cbn; reflexivity.
Qed.

Lemma not_ltb_leb (n m : float) :
  PrimFloat.eqb n n = true -> PrimFloat.eqb m m = true ->
  negb (PrimFloat.ltb n m) = PrimFloat.leb m n.
Proof.
  rewrite !FloatAxioms.eqb_spec, ltb_spec, leb_spec.
  unfold SFeqb, SFltb, SFleb.
  rewrite (SFcompare_antisym (Prim2SF n) (Prim2SF m)).
  generalize (Prim2SF n) (Prim2SF m). intros a c Ha Hc.
  assert (Hac : exists r, SFcompare a c = Some r).
  { destruct a, c; cbn in *; try discriminate; eauto. }
  destruct Hac as [r ->]. by destruct r.
Qed.

Lemma fontSize_valid_range (properties : LayerProperties) (n : float) :
  prop properties "fontSize" = VNum n -> PrimFloat.eqb n n = true ->
  fontSize_valid properties = PrimFloat.leb 1 n && PrimFloat.leb n 1000.
Proof.
  intros Hn Hnum. unfold fontSize_valid. rewrite Hn.
  by rewrite (not_ltb_leb n 1 Hnum), (not_ltb_leb 1000 n) by done.
Qed.

(** C4, at the input on which the source departs from it: [NaN] is a
    number, it is not within [[1, 1000]], and a record that is valid in
    every other respect is accepted with it. *)
Theorem validate_accepts_NaN_fontSize :
  typeof (VNum PrimFloat.nan) = "number" /\
  PrimFloat.leb 1 PrimFloat.nan && PrimFloat.leb PrimFloat.nan 1000 = false /\
  validate (<["fontSize" := VNum PrimFloat.nan]> defaults) = None.
Proof. repeat split; vm_compute; reflexivity. Qed.

(** * Further properties of the code *)

(** ** Font registry *)

Section FontFacts.
Context `{JsRuntime}.

(** X1. A requested family that is not, exactly and with the same case,
    the family of a built-in font resolves to the quoted family followed
    by the generic [sans-serif]; so does any value that is not a
    string. *)
Theorem resolveFontStack_unknown_family (requested : value) :
  (forall f, In f BUILT_IN_FONTS -> requested <> VStr f.(family)) ->
  resolveFontStack requested = "'" +:+ ToString requested +:+ "', sans-serif".
Proof.
  intros Hunknown. unfold resolveFontStack.
  destruct (List.find _ BUILT_IN_FONTS) as [f|] eqn:Hfind; [|reflexivity].
  apply List.find_some in Hfind as [Hin Heq].
  destruct requested as [| |?|?|s]; try discriminate.
  apply String.eqb_eq in Heq. subst s. by destruct (Hunknown f Hin).
Qed.

(** X2. The family of a built-in font resolves to the quoted family
    followed by the fallback chain of the font's own category: the chain
    exists for every built-in font, so the [sans-serif] default of the
    lookup is never taken for one, and the chain ends in the generic
    family named like the category. *)
Theorem resolveFontStack_builtin_family (f : BuiltInFont) :
  In f BUILT_IN_FONTS ->
  exists chain lead,
    record_get FONT_FALLBACKS f.(category) = Some chain /\
    chain = lead +:+ f.(category) /\
    resolveFontStack (VStr f.(family)) = "'" +:+ f.(family) +:+ "', " +:+ chain.
Proof.
  intros Hin. cbn [In BUILT_IN_FONTS] in Hin.
  repeat (destruct Hin as [<- | Hin];
          [ eexists _, _; split; [reflexivity|]; split; [|reflexivity];
            cbn [category];
            first [ instantiate (1 := "Inter, -apple-system, BlinkMacSystemFont, 'Segoe UI', ");
                    reflexivity
                  | instantiate (1 := "'JetBrains Mono', 'SF Mono', 'Fira Code', ");
                    reflexivity
                  | instantiate (1 := "Georgia, 'Times New Roman', "); reflexivity ]
          | ]).
  destruct Hin.
Qed.
End FontFacts.

(** X1, witness: the lookup is case-sensitive. *)
Lemma resolveFontStack_unknown_family_witness :
  @resolveFontStack example_runtime (VStr "inter") = "'inter', sans-serif".
Proof.
  apply (@resolveFontStack_unknown_family example_runtime (VStr "inter")).
  intros f Hin. cbn [In BUILT_IN_FONTS] in Hin.
  repeat (destruct Hin as [<- | Hin]; [discriminate|]). destruct Hin.
Defined.

(** X2, witness: Georgia, a serif font. *)
Lemma resolveFontStack_builtin_family_witness :
  exists chain lead,
    record_get FONT_FALLBACKS "serif" = Some chain /\
    chain = lead +:+ "serif" /\
    @resolveFontStack example_runtime (VStr "Georgia")
    = "'" +:+ "Georgia" +:+ "', " +:+ chain.
Proof.
  apply (@resolveFontStack_builtin_family example_runtime
           {| family := "Georgia"; weights := [400%float; 700%float];
              category := "serif" |}).
  cbn [In BUILT_IN_FONTS]. do 2 right. left. reflexivity.
Defined.

(** ** Schema *)

(** X3. Every descriptor of the schema carries a default of the run-time
    type its [type] stands for; a numeric default lies within the
    descriptor's [min] and [max]; the default of a select is the value of
    one of its options. *)
Theorem schema_defaults_well_formed (schema : LayerPropertySchema.t) :
  In schema TEXT_PROPERTIES ->
  typeof schema.(LayerPropertySchema.default)
  = runtime_type schema.(LayerPropertySchema.type) /\
  (forall lo hi n,
     schema.(LayerPropertySchema.min) = Some lo ->
     schema.(LayerPropertySchema.max) = Some hi ->
     schema.(LayerPropertySchema.default) = VNum n ->
     PrimFloat.leb lo n && PrimFloat.leb n hi = true) /\
  (forall opts,
     schema.(LayerPropertySchema.options) = Some opts ->
     exists s,
       schema.(LayerPropertySchema.default) = VStr s /\ In s (List.map fst opts)).
Proof.
  intros Hin. cbn [In TEXT_PROPERTIES] in Hin.
  repeat (destruct Hin as [Heq | Hin];
          [ subst schema; split; [reflexivity|]; split;
            [ intros lo hi n Hlo Hhi Hn; cbn in Hlo, Hhi, Hn;
              first [ discriminate
                    | injection Hlo as <-; injection Hhi as <-;
                      injection Hn as <-; vm_compute; reflexivity ]
            | intros opts Hopts; cbn in Hopts;
              first [ discriminate
                    | injection Hopts as <-; cbn;
                      eexists; split; [reflexivity|];
                      repeat (first [left; reflexivity | right]) ] ]
          | ]).
  destruct Hin.
Qed.

(** X3, witness: the [fontSize] descriptor, with default 48 in [1, 1000]. *)
Lemma schema_defaults_well_formed_witness :
  descriptor "fontSize" = Some
    {| LayerPropertySchema.key := "fontSize";
       LayerPropertySchema.label := "Font Size";
       LayerPropertySchema.type := "number";
       LayerPropertySchema.default := VNum 48;
       LayerPropertySchema.group := "font";
       LayerPropertySchema.min := Some 1%float;
       LayerPropertySchema.max := Some 1000%float;
       LayerPropertySchema.step := Some 1%float;
       LayerPropertySchema.options := None |}
  /\ PrimFloat.leb 1 48 && PrimFloat.leb 48 1000 = true.
Proof.
  split; [reflexivity|].
  destruct (schema_defaults_well_formed
              {| LayerPropertySchema.key := "fontSize";
                 LayerPropertySchema.label := "Font Size";
                 LayerPropertySchema.type := "number";
                 LayerPropertySchema.default := VNum 48;
                 LayerPropertySchema.group := "font";
                 LayerPropertySchema.min := Some 1%float;
                 LayerPropertySchema.max := Some 1000%float;
                 LayerPropertySchema.step := Some 1%float;
                 LayerPropertySchema.options := None |})
    as (_ & Hrange & _).
  - cbn [In TEXT_PROPERTIES]. do 2 right. left. reflexivity.
  - apply (Hrange 1%float 1000%float 48%float); reflexivity.
Defined.

(** ** Validator *)

Lemma violations_checks (properties : LayerProperties) :
  violations properties
  = (if text_valid properties then [] else ["text"])
    ++ (if fontSize_valid properties then [] else ["fontSize"])
    ++ (if fontWeight_valid properties then [] else ["fontWeight"]).
Proof. apply validate_violations. Qed.

Lemma fontWeight_reported (properties : LayerProperties) :
  In "fontWeight" (violations properties) <-> fontWeight_valid properties = false.
Proof.
  rewrite violations_checks.
  destruct (text_valid properties), (fontSize_valid properties),
    (fontWeight_valid properties); cbn; split; intros Hx;
    try discriminate; try tauto;
    repeat (destruct Hx as [Hx | Hx]; try discriminate); try done.
Qed.

Lemma fontSize_reported (properties : LayerProperties) :
  In "fontSize" (violations properties) <-> fontSize_valid properties = false.
Proof.
  rewrite violations_checks.
  destruct (text_valid properties), (fontSize_valid properties),
    (fontWeight_valid properties); cbn; split; intros Hx;
    try discriminate; try tauto;
    repeat (destruct Hx as [Hx | Hx]; try discriminate); try done.
Qed.

(** X4. [validate] accepts as [fontWeight] exactly the strings that are
    the value of an option of the schema's [fontWeight] descriptor; any
    other value, the number 400 included, is reported under
    [fontWeight]. *)
Theorem validate_fontWeight_matches_schema (properties : LayerProperties) :
  ~ In "fontWeight" (violations properties) <->
  exists schema opts w,
    descriptor "fontWeight" = Some schema /\
    schema.(LayerPropertySchema.options) = Some opts /\
    In w (List.map fst opts) /\
    prop properties "fontWeight" = VStr w.
Proof.
  rewrite fontWeight_reported. unfold fontWeight_valid, strict_eq_str. split.
  - intros Hok.
    destruct (prop properties "fontWeight") as [| |?|?|w] eqn:Hw;
      try (by destruct Hok).
    destruct (String.eqb_spec w "400") as [-> | H400].
    { eexists _, _, "400". split; [reflexivity|]. split; [reflexivity|].
      split; [by left|done]. }
    destruct (String.eqb_spec w "700") as [-> | H700].
    { eexists _, _, "700". split; [reflexivity|]. split; [reflexivity|].
      split; [right; by left|done]. }
    by destruct Hok.
  - intros (schema & opts & w & Hd & Hopts & Hw' & Hw).
    injection Hd as <-. injection Hopts as <-. rewrite Hw.
    cbn in Hw'. destruct Hw' as [<- | [<- | []]]; cbn; discriminate.
Qed.

(** X5. [validate] runs its three checks independently and reports every
    failing one, once, in the order text, fontSize, fontWeight, each with
    its fixed message; it returns [null] exactly when none fails, and
    never an empty list. *)
Theorem validate_reports_failed_checks (properties : LayerProperties) :
  let text_ok := is_string (prop properties "text") in
  let fontSize_ok :=
    match prop properties "fontSize" with
    | VNum n => negb (PrimFloat.ltb n 1) && negb (PrimFloat.ltb 1000 n)
    | _ => false
    end in
  let fontWeight_ok :=
    strict_eq_str (prop properties "fontWeight") "400"
    || strict_eq_str (prop properties "fontWeight") "700" in
  let expected :=
    (if text_ok then []
     else [ {| property := "text"; message := "Text must be a string" |} ])
    ++ (if fontSize_ok then []
        else [ {| property := "fontSize";
                  message := "Font size must be a number between 1 and 1000" |} ])
    ++ (if fontWeight_ok then []
        else [ {| property := "fontWeight";
                  message := "Font weight must be '400' or '700'" |} ]) in
  validate properties = (if text_ok && fontSize_ok && fontWeight_ok
                         then None else Some expected)
  /\ validate properties <> Some [].
Proof.
  cbv zeta. unfold validate.
  destruct (prop properties "text") as [| |tb|tn|ts];
    destruct (prop properties "fontSize") as [| |fb|fn|fs];
    try destruct (PrimFloat.ltb fn 1); try destruct (PrimFloat.ltb 1000 fn);
    destruct (strict_eq_str (prop properties "fontWeight") "400");
    destruct (strict_eq_str (prop properties "fontWeight") "700");
    cbn; split; done.
Qed.

(** X6. [validate] reads the keys [text], [fontSize] and [fontWeight]
    and no other: two records that agree on these three get the same
    verdict, whatever else they hold. *)
Theorem validate_reads_three_keys (p q : LayerProperties) :
  prop p "text" = prop q "text" ->
  prop p "fontSize" = prop q "fontSize" ->
  prop p "fontWeight" = prop q "fontWeight" ->
  validate p = validate q.
Proof. intros Ht Hs Hw. unfold validate. by rewrite Ht, Hs, Hw. Qed.

(** X6, witness: a negative stroke width, outside the schema's range,
    does not change the verdict on the defaults. *)
Lemma validate_reads_three_keys_witness :
  validate (<["strokeWidth" := VNum (-5)]> defaults) = validate defaults
  /\ validate defaults = None.
Proof.
  split; [|vm_compute; reflexivity].
  apply validate_reads_three_keys; vm_compute; reflexivity.
Defined.

(** X7. For a [fontSize] that is a number other than [NaN], [validate]
    reports [fontSize] exactly when the number is outside the range from
    [min] to [max] of the schema's [fontSize] descriptor, that is outside
    [1, 1000], bounds included in the range. *)
Theorem validate_fontSize_range (properties : LayerProperties) (n : float) :
  prop properties "fontSize" = VNum n -> PrimFloat.eqb n n = true ->
  exists schema lo hi,
    descriptor "fontSize" = Some schema /\
    schema.(LayerPropertySchema.min) = Some lo /\
    schema.(LayerPropertySchema.max) = Some hi /\
    (In "fontSize" (violations properties)
     <-> PrimFloat.leb lo n && PrimFloat.leb n hi = false).
Proof.
  intros Hn Hnum. eexists _, _, _. split; [reflexivity|].
  split; [reflexivity|]. split; [reflexivity|].
  rewrite fontSize_reported, (fontSize_valid_range properties n Hn Hnum).
  reflexivity.
Qed.

(** X7, witness: [-5] is reported, [1000] is not. *)
Lemma validate_fontSize_range_witness :
  In "fontSize" (violations (<["fontSize" := VNum (-5)]> defaults))
  /\ violations (<["fontSize" := VNum 1000]> defaults) = [].
Proof.
  split; [|vm_compute; reflexivity].
  destruct (validate_fontSize_range (<["fontSize" := VNum (-5)]> defaults) (-5)%float)
    as (schema & lo & hi & Hd & Hlo & Hhi & Hiff).
  - vm_compute. reflexivity.
  - vm_compute. reflexivity.
  - apply Hiff. injection Hd as <-. injection Hlo as <-. injection Hhi as <-.
    vm_compute. reflexivity.
Defined.

(** ** What the renderers read *)

Section RendererFrames.
Context `{JsRuntime}.

(** X8. [renderText] reads its seventeen styling keys and nothing else
    of the record: two records that agree on them render alike on the
    same bounds, whatever other keys they hold. *)
Theorem renderText_reads_styling_keys (p q : LayerProperties) (b : LayerBounds) :
  (forall k, In k RASTER_KEYS -> prop p k = prop q k) ->
  renderText p b = renderText q b.
Proof.
  intros Hagree. unfold renderText.
  repeat match goal with
         | |- context [prop p ?k] =>
             rewrite (Hagree k) by (cbn [In RASTER_KEYS]; tauto)
         end.
  reflexivity.
Qed.

(** X9. [renderSVG] reads [text], [fontSize], [fontFamily],
    [fontWeight], [fontStyle], [color] and [align] only: line height,
    baseline, stroke and shadow settings never change the markup. *)
Theorem renderSVG_reads_seven_keys (p q : LayerProperties) (b : LayerBounds) :
  (forall k, In k VECTOR_KEYS -> prop p k = prop q k) ->
  renderSVG p b = renderSVG q b.
Proof.
  intros Hagree. unfold renderSVG.
  repeat match goal with
         | |- context [prop p ?k] =>
             rewrite (Hagree k) by (cbn [In VECTOR_KEYS]; tauto)
         end.
  reflexivity.
Qed.

(** X10. Of the bounds both renderers read [x], [y] and [width] only:
    height, rotation and scale never change the surface operations or the
    markup. *)
Theorem renderers_read_x_y_width (properties : LayerProperties)
    (b1 b2 : LayerBounds) :
  b1.(x) = b2.(x) -> b1.(y) = b2.(y) -> b1.(width) = b2.(width) ->
  renderText properties b1 = renderText properties b2 /\
  renderSVG properties b1 = renderSVG properties b2.
Proof.
  intros Hx Hy Hw.
  assert (Hanchor : forall align, anchor_x align b1 = anchor_x align b2).
  { intros align. rewrite <- !strict_eq_str_anchor_x. by rewrite Hx, Hw. }
  split.
  - destruct (text_cases (prop properties "text" ?? VStr ""))
      as [Hf | [(t & Ht & Hne) | (Htr & Hns)]].
    + by rewrite !(renderText_falsy properties _ Hf).
    + rewrite !(renderText_string properties _ t Ht Hne).
      unfold loop_ops. by rewrite Hanchor, Hy.
    + assert (Hns' : forall t, prop properties "text" ?? VStr "" <> VStr t).
      { intros t Ht. rewrite Ht in Hns. discriminate. }
      by rewrite !(renderText_not_string properties _ Htr Hns').
  - unfold renderSVG. by rewrite Hx, Hy, Hw.
Qed.
End RendererFrames.

(** X8, witness: an unknown key next to the defaults. *)
Lemma renderText_reads_styling_keys_witness :
  @renderText example_runtime (<["opacity" := VNum 0]> defaults) BOUNDS
  = @renderText example_runtime defaults BOUNDS.
Proof.
  apply (@renderText_reads_styling_keys example_runtime).
  intros k Hk. cbn [In RASTER_KEYS] in Hk.
  repeat (destruct Hk as [<- | Hk]; [vm_compute; reflexivity|]). destruct Hk.
Defined.

(** X9, witness: an enabled stroke leaves the markup of the defaults as
    it is. *)
Lemma renderSVG_reads_seven_keys_witness :
  @renderSVG example_runtime (<["strokeEnabled" := VBool true]> defaults) BOUNDS
  = @renderSVG example_runtime defaults BOUNDS.
Proof.
  apply (@renderSVG_reads_seven_keys example_runtime).
  intros k Hk. cbn [In VECTOR_KEYS] in Hk.
  repeat (destruct Hk as [<- | Hk]; [vm_compute; reflexivity|]). destruct Hk.
Defined.

(** X10, witness: the bounds of the test suite, twice as high and
    rotated. *)
Lemma renderers_read_x_y_width_witness :
  @renderText example_runtime defaults BOUNDS
  = @renderText example_runtime defaults
      {| x := 10; y := 20; width := 400; height := 200;
         rotation := 90; scaleX := 2; scaleY := 2 |}
  /\ @renderSVG example_runtime defaults BOUNDS
     = @renderSVG example_runtime defaults
         {| x := 10; y := 20; width := 400; height := 200;
            rotation := 90; scaleX := 2; scaleY := 2 |}.
Proof.
  apply (@renderers_read_x_y_width example_runtime); reflexivity.
Defined.

(** ** Escaping *)

Lemma occurrences_app (c : ascii) (a b : string) :
  occurrences c (a +:+ b) = occurrences c a + occurrences c b.
Proof.
  induction a as [|ch a IH]; [done|].
  rewrite append_cons. cbn [occurrences]. rewrite IH. lia.
Qed.

Lemma escape_char_cases (c : ascii) :
  (c = "&"%char /\ escape_char c = "&amp;")
  \/ (c = "<"%char /\ escape_char c = "&lt;")
  \/ (c = ">"%char /\ escape_char c = "&gt;")
  \/ (c <> "&"%char /\ c <> "<"%char /\ c <> ">"%char
      /\ escape_char c = String c EmptyString).
Proof.
  unfold escape_char.
  destruct (Ascii.eqb_spec c "&") as [-> | Hamp]; [by left|].
  destruct (Ascii.eqb_spec c "<") as [-> | Hlt]; [right; by left|].
  destruct (Ascii.eqb_spec c ">") as [-> | Hgt]; [right; right; by left|].
  by repeat right.
Qed.

Lemma escape_markup_counts (t : string) :
  occurrences "<" (escape_markup t) = 0 /\
  occurrences ">" (escape_markup t) = 0 /\
  occurrences "&" (escape_markup t)
  = occurrences "&" t + occurrences "<" t + occurrences ">" t.
Proof.
  induction t as [|c t (IHlt & IHgt & IHamp)]; [done|].
  cbn [escape_markup]. rewrite !occurrences_app, IHlt, IHgt, IHamp.
  cbn [occurrences].
  destruct (escape_char_cases c)
    as [[-> ->] | [[-> ->] | [[-> ->] | (Hamp & Hlt & Hgt & ->)]]];
    try (cbn; repeat split; lia).
  cbn [occurrences].
  apply Ascii.eqb_neq in Hamp, Hlt, Hgt. rewrite Hamp, Hlt, Hgt.
  repeat split; lia.
Qed.

Lemma escape_markup_inj (s1 s2 : string) :
  escape_markup s1 = escape_markup s2 -> s1 = s2.
Proof.
  revert s2. induction s1 as [|a s1 IH]; intros [|b s2] Heq.
  - reflexivity.
  - exfalso. cbn [escape_markup] in Heq.
    destruct (escape_char_cases b)
      as [[_ Hb] | [[_ Hb] | [[_ Hb] | (_ & _ & _ & Hb)]]];
      rewrite Hb in Heq; cbv [String.append] in Heq; discriminate.
  - exfalso. cbn [escape_markup] in Heq.
    destruct (escape_char_cases a)
      as [[_ Ha] | [[_ Ha] | [[_ Ha] | (_ & _ & _ & Ha)]]];
      rewrite Ha in Heq; cbv [String.append] in Heq; discriminate.
  - cbn [escape_markup] in Heq.
    destruct (escape_char_cases a)
      as [[Hca Ha] | [[Hca Ha] | [[Hca Ha] | (Ha1 & Ha2 & Ha3 & Ha)]]];
      destruct (escape_char_cases b)
        as [[Hcb Hb] | [[Hcb Hb] | [[Hcb Hb] | (Hb1 & Hb2 & Hb3 & Hb)]]];
      rewrite Ha, Hb in Heq; cbv [String.append] in Heq;
      try discriminate;
      try (injection Heq as Heq; subst a b; f_equal; by apply IH);
      try (injection Heq as Hc Heq; congruence).
  injection Heq as Hc Heq. subst b. f_equal. by apply IH.
Qed.

Section EscapeFacts.
Context `{JsRuntime}.

(** X11. When the resolved text is a string, the content of the element
    [renderSVG] returns holds no [<] and no [>], and holds one [&] for
    each [&], [<] and [>] of the text: every markup character of the text
    has become an entity and nothing else of the content reads as
    markup. *)
Theorem renderSVG_content_has_no_markup (properties : LayerProperties)
    (b : LayerBounds) (t : string) :
  prop properties "text" ?? VStr "" = VStr t ->
  exists ax ay fontFamily fontSize fontWeight fontStyle fill anchor content,
    renderSVG properties b
    = Normal (svg_text_element ax ay fontFamily fontSize fontWeight fontStyle
                fill anchor content) /\
    content = escape_chain t /\
    occurrences "<" content = 0 /\
    occurrences ">" content = 0 /\
    occurrences "&" content
    = occurrences "&" t + occurrences "<" t + occurrences ">" t.
Proof.
  intros Ht. rewrite (renderSVG_string properties b t Ht).
  unfold escape_chain. rewrite replace_chain_escape_markup.
  destruct (escape_markup_counts t) as (Hlt & Hgt & Hamp).
  eexists _, _, _, _, _, _, _, _, _. split; [reflexivity|]. done.
Qed.
End EscapeFacts.

(** X12. The three replacements of [renderSVG] lose nothing: two texts
    with the same escaped form are the same text. *)
Theorem escape_chain_injective (s1 s2 : string) :
  escape_chain s1 = escape_chain s2 -> s1 = s2.
Proof.
  unfold escape_chain. rewrite !replace_chain_escape_markup.
  apply escape_markup_inj.
Qed.

(** X11, witness: the escaping test of the suite. *)
Lemma renderSVG_content_has_no_markup_witness :
  escape_chain "<script>&test" = "&lt;script&gt;&amp;test"
  /\ occurrences "<" (escape_chain "<script>&test") = 0
  /\ exists ax ay fontFamily fontSize fontWeight fontStyle fill anchor content,
       @renderSVG example_runtime (example_text "<script>&test") BOUNDS
       = Normal (svg_text_element ax ay fontFamily fontSize fontWeight fontStyle
                   fill anchor content) /\
       content = escape_chain "<script>&test" /\
       occurrences "<" content = 0 /\
       occurrences ">" content = 0 /\
       occurrences "&" content
       = occurrences "&" "<script>&test" + occurrences "<" "<script>&test"
         + occurrences ">" "<script>&test".
Proof.
  split; [vm_compute; reflexivity|]. split; [vm_compute; reflexivity|].
  apply (@renderSVG_content_has_no_markup example_runtime).
  vm_compute. reflexivity.
Defined.

(** X12, witness: a text that holds an entity already is escaped once
    more, so it is told apart from the markup character it names. *)
Lemma escape_chain_injective_witness :
  escape_chain "&lt;" = "&amp;lt;" /\ escape_chain "<" = "&lt;"
  /\ "a<b" = "a<b".
Proof.
  split; [vm_compute; reflexivity|]. split; [vm_compute; reflexivity|].
  apply (escape_chain_injective "a<b" "a<b"). reflexivity.
Defined.

(** ** Setup of the surface *)

Section SetupFacts.
Context `{JsRuntime}.

Lemma loop_ops_no_shadow properties b t :
  Forall (fun op => is_shadow_op op = false) (loop_ops properties b t).
Proof.
  unfold loop_ops. apply Forall_join_imap. intros k l.
  unfold line_ops. destruct (truthy _ && _); repeat constructor.
Qed.

Lemma filter_none {A} (f : A -> bool) (l : list A) :
  Forall (fun a => f a = false) l -> List.filter f l = [].
Proof.
  induction 1 as [|a l Ha _ IH]; [done|]. cbn [List.filter]. by rewrite Ha.
Qed.

(** X13. When the resolved text is a non-empty string, the operations of
    [renderText] split into a setup without any draw call and a rest
    without any shadow attribute: the shadow colour, blur and offsets
    are set once, in this order, before the first line is drawn, exactly
    when [shadowEnabled] is truthy, and not at all otherwise. *)
Theorem renderText_shadow_before_drawing (properties : LayerProperties)
    (b : LayerBounds) (t : string) :
  prop properties "text" ?? VStr "" = VStr t -> t <> "" ->
  exists setup rest,
    (renderText properties b).1 = setup ++ rest /\
    draws setup = [] /\
    List.filter is_shadow_op rest = [] /\
    List.filter is_shadow_op setup
    = if truthy (prop properties "shadowEnabled" ?? VBool false)
      then [ SetShadowColor (prop properties "shadowColor" ?? VStr "rgba(0,0,0,0.5)");
             SetShadowBlur (prop properties "shadowBlur" ?? VNum 4);
             SetShadowOffsetX (prop properties "shadowOffsetX" ?? VNum 2);
             SetShadowOffsetY (prop properties "shadowOffsetY" ?? VNum 2) ]
      else [].
Proof.
  intros Ht Hne. rewrite (renderText_string properties b t Ht Hne). cbn [fst].
  exists (Save :: setup_ops properties), (loop_ops properties b t ++ [Restore]).
  split; [reflexivity|]. split; [|split].
  - change (Save :: ?l) with ([Save] ++ l). rewrite draws_app.
    by destruct (Forall_not_draw _ (setup_ops_no_draw properties)) as (-> & _).
  - rewrite List.filter_app, (filter_none _ _ (loop_ops_no_shadow properties b t)).
    reflexivity.
  - unfold setup_ops.
    by destruct (truthy (prop properties "shadowEnabled" ?? VBool false)).
Qed.

(** X14. Whenever the resolved text is truthy, [renderText] begins by
    saving the surface, setting the font to
    [fontStyle fontWeight fontSize"px" fontStack], with the stack resolved
    from the resolved [fontFamily], and handing the resolved [align] and
    [baseline] to the surface as they are, in this order. *)
Theorem renderText_begins_with_font_and_alignment (properties : LayerProperties)
    (b : LayerBounds) :
  truthy (prop properties "text" ?? VStr "") = true ->
  exists rest,
    (renderText properties b).1
    = Save
      :: SetFont (ToString (prop properties "fontStyle" ?? VStr "normal") +:+ " "
                  +:+ ToString (prop properties "fontWeight" ?? VStr "400") +:+ " "
                  +:+ ToString (prop properties "fontSize" ?? VNum 48) +:+ "px "
                  +:+ resolveFontStack (prop properties "fontFamily" ?? VStr "Inter"))
      :: SetTextAlign (prop properties "align" ?? VStr "left")
      :: SetTextBaseline (prop properties "baseline" ?? VStr "top")
      :: rest.
Proof.
  intros Htr.
  destruct (text_cases (prop properties "text" ?? VStr ""))
    as [Hf | [(t & Ht & Hne) | (_ & Hns)]].
  - rewrite Htr in Hf. discriminate.
  - rewrite (renderText_string properties b t Ht Hne). cbn [fst].
    unfold setup_ops. eexists. cbn [app]. reflexivity.
  - assert (Hns' : forall t, prop properties "text" ?? VStr "" <> VStr t).
    { intros t Ht. rewrite Ht in Hns. discriminate. }
    rewrite (renderText_not_string properties b Htr Hns'). cbn [fst].
    unfold setup_ops. eexists. cbn [app]. reflexivity.
Qed.

(** X15. The record [createDefault] returns validates, and rendering it
    on any bounds saves the surface, fills the one line [Hello World] at
    [(bounds.x, bounds.y + 0)] in white, without stroke or shadow, and
    restores the surface. *)
Theorem createDefault_validates_and_renders (h : heap) (b : LayerBounds) :
  exists o,
    (createDefault h).2 !! (createDefault h).1 = Some o /\
    validate o = None /\
    renderText o b
    = ([ Save;
         SetFont ("normal 400 " +:+ NumberToString 48
                  +:+ "px 'Inter', Inter, -apple-system, BlinkMacSystemFont, 'Segoe UI', sans-serif");
         SetTextAlign (VStr "left");
         SetTextBaseline (VStr "top");
         SetFillStyle (VStr "#ffffff");
         FillText "Hello World" b.(x) (b.(y) + 0)%float;
         Restore ],
       Normal tt).
Proof.
  exists defaults. rewrite createDefault_fresh. cbn [fst snd].
  split; [by rewrite lookup_insert_eq|]. split; [exact validate_defaults|].
  destruct b as [bx by_ bw bh br bsx bsy]. vm_compute. reflexivity.
Qed.
End SetupFacts.

(** X13, witness: the shadow render of the test suite. *)
Lemma renderText_shadow_before_drawing_witness :
  exists setup rest,
    (@renderText example_runtime
       (<["shadowEnabled" := VBool true]> (<["shadowBlur" := VNum 10]> defaults))
       BOUNDS).1 = setup ++ rest /\
    draws setup = [] /\
    List.filter is_shadow_op rest = [] /\
    List.filter is_shadow_op setup
    = [ SetShadowColor (VStr "rgba(0,0,0,0.5)"); SetShadowBlur (VNum 10);
        SetShadowOffsetX (VNum 2); SetShadowOffsetY (VNum 2) ].
Proof.
  destruct (@renderText_shadow_before_drawing example_runtime
              (<["shadowEnabled" := VBool true]> (<["shadowBlur" := VNum 10]> defaults))
              BOUNDS "Hello World") as (setup & rest & Hops & Hd & Hr & Hs).
  - vm_compute. reflexivity.
  - discriminate.
  - exists setup, rest. split; [exact Hops|]. split; [exact Hd|].
    split; [exact Hr|]. rewrite Hs. vm_compute. reflexivity.
Defined.

(** X14, witness: an [align] the surface does not know is handed over
    unchanged, and a built-in serif family brings its chain. *)
Lemma renderText_begins_with_font_and_alignment_witness :
  exists rest,
    (@renderText example_runtime
       (<["align" := VStr "justify"]> (<["fontFamily" := VStr "Georgia"]> defaults))
       BOUNDS).1
    = Save
      :: SetFont "normal 400 48px 'Georgia', Georgia, 'Times New Roman', serif"
      :: SetTextAlign (VStr "justify")
      :: SetTextBaseline (VStr "top")
      :: rest.
Proof.
  destruct (@renderText_begins_with_font_and_alignment example_runtime
              (<["align" := VStr "justify"]> (<["fontFamily" := VStr "Georgia"]> defaults))
              BOUNDS) as (rest & Hops).
  - vm_compute. reflexivity.
  - exists rest. rewrite Hops. vm_compute. reflexivity.
Defined.

(** ** Style-mutation tools *)

Lemma lookup_forward (input : gmap string value) (source key : string)
    (patch : gmap string value) (k : string) :
  forward input source key patch !! k
  = if String.eqb key k && defined (prop input source)
    then Some (prop input source) else patch !! k.
Proof.
  unfold forward. destruct (defined (prop input source)).
  - destruct (String.eqb_spec key k) as [-> | Hne]; cbn [andb].
    + by rewrite lookup_insert_eq.
    + by rewrite lookup_insert_ne.
  - by rewrite andb_false_r.
Qed.

Lemma lookup_forward_all (input : gmap string value) (keys : list string)
    (patch : gmap string value) (k : string) :
  foldl (fun updates key => forward input key key updates) patch keys !! k
  = if existsb (String.eqb k) keys && defined (prop input k)
    then Some (prop input k) else patch !! k.
Proof.
  revert patch. induction keys as [|key rest IH]; intros patch; [done|].
  cbn [foldl existsb]. rewrite IH, lookup_forward.
  destruct (existsb (String.eqb k) rest) eqn:Hrest; cbn [andb orb].
  - rewrite orb_true_r. cbn [andb].
    destruct (defined (prop input k)) eqn:Hd; [done|].
    destruct (String.eqb_spec key k) as [-> | Hne]; cbn [andb]; [|done].
    by rewrite Hd.
  - rewrite orb_false_r, (String.eqb_sym k key).
    destruct (String.eqb_spec key k) as [-> | Hne]; cbn [andb]; done.
Qed.

Lemma forallb_false_exists {A} (f : A -> bool) (l : list A) :
  forallb f l = false -> exists a, In a l /\ f a = false.
Proof.
  induction l as [|a rest IH]; [discriminate|].
  cbn [forallb]. intros Hall. apply andb_false_iff in Hall as [Ha | Hrest].
  - exists a. split; [by left|done].
  - destruct (IH Hrest) as (a' & Hin & Ha'). exists a'. split; [by right|done].
Qed.

Section ToolFacts.
Context `{JsRuntime} {S R : Type} `{McpToolContext S R}.

(** X16. A call of [set_text], [apply_text_style] or [set_text_shadow]
    that returns an error result has left the host as it was: no layer
    was added or updated and no change was notified.  A call that returns
    a result without the error flag has ended by notifying a change. *)
Theorem tool_error_results_leave_state (input : gmap string value)
    (s s' : S) (r : McpToolResult) :
  setText_handler input s = (s', Normal r)
  \/ applyTextStyle_handler input s = (s', Normal r)
  \/ setTextShadow_handler input s = (s', Normal r) ->
  (isError r = true -> s' = s) /\
  (isError r = false -> exists kind s0, s' = emitChange kind s0).
Proof.
  unfold setText_handler, applyTextStyle_handler, setTextShadow_handler.
  intros [Hcall | [Hcall | Hcall]].
  - destruct (truthy (prop input "layerId")).
    + destruct (layers_get (prop input "layerId") s) as [layer|].
      * destruct (negb (String.eqb (DesignLayer.type (layer_read layer s))
                          "typography:text"));
          injection Hcall as <- <-; cbn [isError errorResult textResult];
          split; intros; try discriminate; eauto.
      * injection Hcall as <- <-. cbn. split; intros; try discriminate; eauto.
    + destruct (layer_name (prop input "text")); [|discriminate].
      injection Hcall as <- <-. cbn. split; intros; try discriminate; eauto.
  - destruct (layers_get (prop input "layerId") s) as [layer|].
    + destruct (negb (String.eqb (DesignLayer.type (layer_read layer s))
                        "typography:text")).
      * injection Hcall as <- <-. cbn. split; intros; try discriminate; eauto.
      * destruct (Nat.eqb _ 0);
          injection Hcall as <- <-; cbn; split; intros; try discriminate; eauto.
    + injection Hcall as <- <-. cbn. split; intros; try discriminate; eauto.
  - destruct (layers_get (prop input "layerId") s) as [layer|].
    + destruct (negb (String.eqb (DesignLayer.type (layer_read layer s))
                        "typography:text"));
        injection Hcall as <- <-; cbn; split; intros; try discriminate; eauto.
    + injection Hcall as <- <-. cbn. split; intros; try discriminate; eauto.
Qed.

Lemma applyTextStyle_forwards_defined_keys_aux (input : gmap string value)
    (s : S) (layer : R) :
  layers_get (prop input "layerId") s = Some layer ->
  DesignLayer.type (layer_read layer s) = "typography:text" ->
  exists updates : gmap string value,
    applyTextStyle_handler input s
    = if forallb (fun k => negb (defined (prop input k))) styleKeys
      then (s, Normal (errorResult "No style properties provided."))
      else (emitChange "layer-updated"
              (layers_updateProperties (prop input "layerId") updates s),
            Normal (textResult ("Applied style to text layer '"
                                +:+ ToString (prop input "layerId") +:+ "'."))).
Proof.
  intros Hget Htype.
  set (updates := foldl (fun updates key => forward input key key updates)
                        (∅ : gmap string value) styleKeys).
  assert (Hlookup : forall k,
            updates !! k
            = if existsb (String.eqb k) styleKeys && defined (prop input k)
              then Some (prop input k) else None).
  { intros k. unfold updates. by rewrite lookup_forward_all, lookup_empty. }
  exists updates.
  unfold applyTextStyle_handler. rewrite Hget, Htype, String.eqb_refl.
  cbn [negb]. fold updates.
  destruct (forallb (fun k => negb (defined (prop input k))) styleKeys) eqn:Hall.
  - assert (Hempty : updates = ∅).
    { apply map_eq. intros k. rewrite Hlookup, lookup_empty.
      destruct (existsb (String.eqb k) styleKeys) eqn:Hk; [|done].
      apply existsb_exists in Hk as (k' & Hin & Heq).
      apply String.eqb_eq in Heq. subst k'.
      rewrite forallb_forall in Hall. specialize (Hall k Hin).
      apply negb_true_iff in Hall. by rewrite Hall. }
    by rewrite Hempty, map_size_empty.
  - destruct (Nat.eqb_spec (size updates) 0) as [Hsize | Hsize]; [|done].
    exfalso. apply map_size_empty_iff in Hsize.
    destruct (forallb_false_exists _ _ Hall) as (k & Hin & Hd).
    apply negb_false_iff in Hd.
    specialize (Hlookup k). rewrite Hsize, lookup_empty, Hd, andb_true_r in Hlookup.
    assert (Hk : existsb (String.eqb k) styleKeys = true).
    { apply existsb_exists. exists k. split; [done|apply String.eqb_refl]. }
    rewrite Hk in Hlookup. discriminate.
Qed.

(** X17. On a text layer, [apply_text_style] forwards exactly the style
    keys of its input that are not [undefined], each with the input's
    value ([null] included), in one [updateProperties] followed by a
    [layer-updated] notification; [text], [align], the shadow keys and
    any other key of the input are never forwarded.  When no style key is
    defined it returns the error [No style properties provided.] and
    leaves the host as it was. *)
Theorem applyTextStyle_forwards_defined_style_keys (input : gmap string value)
    (s : S) (layer : R) :
  layers_get (prop input "layerId") s = Some layer ->
  DesignLayer.type (layer_read layer s) = "typography:text" ->
  exists updates : gmap string value,
    (forall k,
       updates !! k
       = if existsb (String.eqb k) styleKeys && defined (prop input k)
         then Some (prop input k) else None) /\
    applyTextStyle_handler input s
    = if forallb (fun k => negb (defined (prop input k))) styleKeys
      then (s, Normal (errorResult "No style properties provided."))
      else (emitChange "layer-updated"
              (layers_updateProperties (prop input "layerId") updates s),
            Normal (textResult ("Applied style to text layer '"
                                +:+ ToString (prop input "layerId") +:+ "'."))).
Proof.
  intros Hget Htype.
  set (updates := foldl (fun updates key => forward input key key updates)
                        (∅ : gmap string value) styleKeys).
  assert (Hlookup : forall k,
            updates !! k
            = if existsb (String.eqb k) styleKeys && defined (prop input k)
              then Some (prop input k) else None).
  { intros k. unfold updates. by rewrite lookup_forward_all, lookup_empty. }
  exists updates. split; [exact Hlookup|].
  unfold applyTextStyle_handler. rewrite Hget, Htype, String.eqb_refl.
  cbn [negb]. fold updates.
  destruct (forallb (fun k => negb (defined (prop input k))) styleKeys) eqn:Hall.
  - assert (Hempty : updates = ∅).
    { apply map_eq. intros k. rewrite Hlookup, lookup_empty.
      destruct (existsb (String.eqb k) styleKeys) eqn:Hk; [|done].
      apply existsb_exists in Hk as (k' & Hin & Heq).
      apply String.eqb_eq in Heq. subst k'.
      rewrite forallb_forall in Hall. specialize (Hall k Hin).
      apply negb_true_iff in Hall. by rewrite Hall. }
    by rewrite Hempty, map_size_empty.
  - destruct (Nat.eqb_spec (size updates) 0) as [Hsize | Hsize]; [|done].
    exfalso. apply map_size_empty_iff in Hsize.
    destruct (forallb_false_exists _ _ Hall) as (k & Hin & Hd).
    apply negb_false_iff in Hd.
    specialize (Hlookup k). rewrite Hsize, lookup_empty, Hd, andb_true_r in Hlookup.
    assert (Hk : existsb (String.eqb k) styleKeys = true).
    { apply existsb_exists. exists k. split; [done|apply String.eqb_refl]. }
    rewrite Hk in Hlookup. discriminate.
Qed.
End ToolFacts.

Lemma created_properties_lookup (input : gmap string value) (k : string) :
  forward input "align" "align"
    (forward input "color" "color"
       (forward input "fontFamily" "fontFamily"
          (forward input "fontSize" "fontSize"
             (<["text" := prop input "text"]> defaults)))) !! k
  = if String.eqb "text" k then Some (prop input "text")
    else if existsb (String.eqb k) SET_TEXT_STYLE_KEYS && defined (prop input k)
    then Some (prop input k) else defaults !! k.
Proof.
  rewrite !lookup_forward. cbn [existsb SET_TEXT_STYLE_KEYS].
  rewrite !(String.eqb_sym k).
  destruct (String.eqb_spec "text" k) as [<- | Htext'].
  { cbn. by rewrite lookup_insert_eq. }
  rewrite lookup_insert_ne by done.
  destruct (String.eqb_spec "align" k) as [<- | ?];
    [cbn; by destruct (defined _)|].
  destruct (String.eqb_spec "color" k) as [<- | ?];
    [cbn; by destruct (defined _)|].
  destruct (String.eqb_spec "fontFamily" k) as [<- | ?];
    [cbn; by destruct (defined _)|].
  destruct (String.eqb_spec "fontSize" k) as [<- | ?];
    [cbn; by destruct (defined _)|].
  reflexivity.
Qed.

Section ToolPatches.
Context `{JsRuntime} {S R : Type} `{McpToolContext S R}.

(** X18. On a text layer, [set_text_shadow] never returns an error: it
    applies one patch and notifies [layer-updated], also when the patch
    is empty.  The patch holds [shadowEnabled], [shadowColor],
    [shadowBlur], [shadowOffsetX] and [shadowOffsetY] for the input keys
    [enabled], [color], [blur], [offsetX] and [offsetY] that are not
    [undefined], and no other key.  When [enabled] is a boolean the
    message says configured for [true] and disabled for [false]. *)
Theorem setTextShadow_patch (input : gmap string value) (s : S) (layer : R) :
  layers_get (prop input "layerId") s = Some layer ->
  DesignLayer.type (layer_read layer s) = "typography:text" ->
  exists (updates : gmap string value) (r : McpToolResult),
    setTextShadow_handler input s
    = (emitChange "layer-updated"
         (layers_updateProperties (prop input "layerId") updates s),
       Normal r) /\
    isError r = false /\
    (forall k,
       updates !! k
       = match shadow_source k with
         | Some source =>
             if defined (prop input source) then Some (prop input source) else None
         | None => None
         end) /\
    (forall enabled : bool,
       prop input "enabled" = VBool enabled ->
       r = textResult
             (if enabled
              then "Shadow configured on text layer '"
                   +:+ ToString (prop input "layerId") +:+ "'."
              else "Shadow disabled on text layer '"
                   +:+ ToString (prop input "layerId") +:+ "'.")).
Proof.
  intros Hget Htype. unfold setTextShadow_handler.
  rewrite Hget, Htype, String.eqb_refl. cbn [negb].
  eexists _, _. split; [reflexivity|]. split; [reflexivity|]. split.
  - intros k. rewrite !lookup_forward, lookup_empty. unfold shadow_source.
    destruct (String.eqb_spec "shadowOffsetY" k) as [<- | ?]; [reflexivity|].
    destruct (String.eqb_spec "shadowOffsetX" k) as [<- | ?]; [reflexivity|].
    destruct (String.eqb_spec "shadowBlur" k) as [<- | ?]; [reflexivity|].
    destruct (String.eqb_spec "shadowColor" k) as [<- | ?]; [reflexivity|].
    destruct (String.eqb_spec "shadowEnabled" k) as [<- | ?]; reflexivity.
  - intros enabled Hen. rewrite Hen. by destruct enabled.
Qed.

(** X19. On a text layer, [set_text] with a truthy [layerId] applies one
    property patch that always holds [text] (the input's value, also when
    it is [undefined]) and otherwise only the defined ones of
    [fontSize], [fontFamily], [color] and [align]; it updates the
    transform exactly when [x] or [y] is defined, with the defined ones
    of the two only; then it notifies [layer-updated]. *)
Theorem setText_updates_existing_layer (input : gmap string value) (s : S)
    (layer : R) :
  truthy (prop input "layerId") = true ->
  layers_get (prop input "layerId") s = Some layer ->
  DesignLayer.type (layer_read layer s) = "typography:text" ->
  exists updates moved : gmap string value,
    setText_handler input s
    = (emitChange "layer-updated"
         (if defined (prop input "x") || defined (prop input "y")
          then layers_updateTransform (prop input "layerId") moved
                 (layers_updateProperties (prop input "layerId") updates s)
          else layers_updateProperties (prop input "layerId") updates s),
       Normal (textResult ("Updated text layer '"
                           +:+ ToString (prop input "layerId") +:+ "'."))) /\
    (forall k,
       updates !! k
       = if String.eqb "text" k then Some (prop input "text")
         else if existsb (String.eqb k) SET_TEXT_STYLE_KEYS && defined (prop input k)
         then Some (prop input k) else None) /\
    (forall k,
       moved !! k
       = if existsb (String.eqb k) ["x"; "y"] && defined (prop input k)
         then Some (prop input k) else None).
Proof.
  intros Hid Hget Htype. unfold setText_handler.
  rewrite Hid, Hget, Htype, String.eqb_refl. cbn [negb].
  eexists _, _. split; [reflexivity|]. split.
  - intros k. rewrite !lookup_forward. cbn [existsb SET_TEXT_STYLE_KEYS].
    rewrite !(String.eqb_sym k).
    destruct (String.eqb_spec "text" k) as [<- | Htext].
    { cbn. rewrite lookup_singleton_eq.
      repeat match goal with
             | |- context [if false && ?d then _ else _] => change (false && d) with false
             end. reflexivity. }
    rewrite lookup_singleton_ne by done.
    destruct (String.eqb_spec "align" k) as [<- | ?];
      [cbn; by destruct (defined _)|].
    destruct (String.eqb_spec "color" k) as [<- | ?];
      [cbn; by destruct (defined _)|].
    destruct (String.eqb_spec "fontFamily" k) as [<- | ?];
      [cbn; by destruct (defined _)|].
    destruct (String.eqb_spec "fontSize" k) as [<- | ?];
      [cbn; by destruct (defined _)|].
    reflexivity.
  - intros k. rewrite !lookup_forward, lookup_empty. cbn [existsb].
    rewrite !(String.eqb_sym k).
    destruct (String.eqb_spec "y" k) as [<- | ?];
      [cbn; by destruct (defined _)|].
    destruct (String.eqb_spec "x" k) as [<- | ?];
      [cbn; by destruct (defined _)|].
    reflexivity.
Qed.

(** X20. [set_text] with a falsy [layerId] (absent, empty, zero) and a
    [text] that is neither [undefined] nor [null] adds one layer of type
    [typography:text] and notifies [layer-added].  The layer's properties
    hold every key of the schema: the input's [text], the input's
    [fontSize], [fontFamily], [color] and [align] where defined, and the
    schema default for every other key.  Its position is the input's [x]
    and [y], 50 where absent or [null]; its width is the canvas width
    less 100 and its height twice the numeric value of [fontSize]. *)
Theorem setText_creates_layer (input : gmap string value) (s : S) :
  truthy (prop input "layerId") = false ->
  ~ nullish input "text" ->
  exists (layer : DesignLayer.t) (r : McpToolResult),
    setText_handler input s
    = (emitChange "layer-added" (layers_add layer s), Normal r) /\
    isError r = false /\
    DesignLayer.id layer = generateLayerId s /\
    DesignLayer.type layer = "typography:text" /\
    (forall k,
       DesignLayer.properties layer !! k
       = if String.eqb "text" k then Some (prop input "text")
         else if existsb (String.eqb k) SET_TEXT_STYLE_KEYS && defined (prop input k)
         then Some (prop input k) else defaults !! k) /\
    (forall schema, In schema TEXT_PROPERTIES ->
       is_Some (DesignLayer.properties layer !! schema.(LayerPropertySchema.key))) /\
    LayerTransform.x (DesignLayer.transform layer) = prop input "x" ?? VNum 50 /\
    LayerTransform.y (DesignLayer.transform layer) = prop input "y" ?? VNum 50 /\
    LayerTransform.width (DesignLayer.transform layer) = (canvasWidth s - 100)%float /\
    LayerTransform.height (DesignLayer.transform layer)
    = js_mul (prop (DesignLayer.properties layer) "fontSize") (VNum 2).
Proof.
  intros Hid Htext. unfold setText_handler. rewrite Hid.
  assert (Hname : exists name, layer_name (prop input "text") = Normal name).
  { unfold nullish in Htext.
    destruct (prop input "text") as [| |?|?|t]; cbn; eauto; tauto. }
  destruct Hname as [name ->].
  eexists _, _. split; [reflexivity|].
  split; [reflexivity|]. split; [reflexivity|]. split; [reflexivity|].
  split; [exact (created_properties_lookup input)|].
  split; [|repeat split; reflexivity].
  intros schema Hin. cbn [DesignLayer.properties].
  rewrite created_properties_lookup.
  destruct (String.eqb "text" _); [eauto|].
  destruct (existsb _ _ && defined _); [eauto|].
  destruct (defaults_hold (LayerPropertySchema.key schema)
              (LayerPropertySchema.default schema)) as [_ Hd].
  rewrite Hd; eauto.
Qed.

(** X21. [set_text] with a falsy [layerId] and a [text] that is
    [undefined] or [null] throws a [TypeError] (reading [text.length])
    before anything is added or notified: the host is left as it was. *)
Theorem setText_create_without_text_throws (input : gmap string value) (s : S) :
  truthy (prop input "layerId") = false ->
  nullish input "text" ->
  setText_handler input s = (s, Throw TypeError).
Proof.
  intros Hid [Htext | Htext]; unfold setText_handler; by rewrite Hid, Htext.
Qed.

(** X22. The layer that [set_text] creates from a string [text] and no
    [fontSize] validates, whatever [fontFamily], [color], [align], [x]
    and [y] the input holds. *)
Theorem setText_created_layer_validates (input : gmap string value) (s : S)
    (t : string) :
  truthy (prop input "layerId") = false ->
  prop input "text" = VStr t ->
  prop input "fontSize" = VUndefined ->
  exists (layer : DesignLayer.t) (r : McpToolResult),
    setText_handler input s
    = (emitChange "layer-added" (layers_add layer s), Normal r) /\
    validate (DesignLayer.properties layer) = None.
Proof.
  intros Hid Htext Hsize. unfold setText_handler. rewrite Hid, Htext.
  cbn [layer_name]. eexists _, _. split; [reflexivity|].
  cbn [DesignLayer.properties]. rewrite <- Htext.
  match goal with |- validate ?p = None => set (props := p) end.
  assert (Ht : prop props "text" = VStr t).
  { unfold prop, props. rewrite created_properties_lookup, Htext. reflexivity. }
  assert (Hs : prop props "fontSize" = VNum 48).
  { unfold prop at 1, props. rewrite created_properties_lookup, Hsize.
    vm_compute. reflexivity. }
  assert (Hw : prop props "fontWeight" = VStr "400").
  { unfold prop at 1, props. rewrite created_properties_lookup.
    vm_compute. reflexivity. }
  unfold validate. rewrite Ht, Hs, Hw. vm_compute. reflexivity.
Qed.
End ToolPatches.

Lemma append_nil_r (a : string) : a +:+ "" = a.
Proof. induction a as [|c a IH]; [done|]. by rewrite append_cons, IH. Qed.

Lemma join_In (sep x : string) (l : list string) :
  In x l -> exists pre post, join sep l = pre +:+ x +:+ post.
Proof.
  induction l as [|a rest IH]; [intros []|].
  intros [-> | Hin].
  - destruct rest as [|a' rest'].
    + exists "", "". cbn [join]. by rewrite append_nil_r.
    + exists "", (sep +:+ join sep (a' :: rest')). reflexivity.
  - destruct rest as [|a' rest']; [destruct Hin|].
    destruct (IH Hin) as (pre & post & Hjoin).
    exists (a +:+ sep +:+ pre), post.
    change (join sep (a :: a' :: rest')) with (a +:+ sep +:+ join sep (a' :: rest')).
    by rewrite Hjoin, !append_assoc.
Qed.

Section ListFonts.
Context `{JsRuntime} {S : Type}.

(** X23. [list_fonts] never returns an error and leaves the host as it
    was, whatever its input; the text it returns names the family of
    every built-in font. *)
Theorem listFonts_names_every_family (input : gmap string value) (s : S)
    (f : BuiltInFont) :
  In f BUILT_IN_FONTS ->
  exists text,
    listFonts_handler input s = (s, Normal (textResult text)) /\
    includes text f.(family) = true.
Proof.
  intros Hin. unfold listFonts_handler. eexists. split; [reflexivity|].
  set (line := fun f : BuiltInFont =>
                 "• " +:+ f.(family) +:+ " — weights: "
                 +:+ join ", " (List.map NumberToString f.(weights))
                 +:+ " (" +:+ f.(category) +:+ ")").
  destruct (join_In (String LF "") (line f) (List.map line BUILT_IN_FONTS))
    as (pre & post & Hjoin).
  { by apply in_map. }
  rewrite Hjoin. unfold line.
  match goal with
  | |- includes ?text _ = true =>
      replace text
        with (("Available fonts:" +:+ String LF (pre +:+ "• "))
              +:+ f.(family)
              +:+ ((" — weights: "
                    +:+ join ", " (List.map NumberToString f.(weights))
                    +:+ " (" +:+ f.(category) +:+ ")") +:+ post))
  end.
  - apply includes_append.
  - rewrite <- !(append_cons LF). by rewrite !append_assoc.
Qed.
End ListFonts.

(** ** Closed examples of the tools *)

Section ToolErrors.
Context `{JsRuntime} {S R : Type} `{McpToolContext S R}.

(** X24. The three updating tools return an error result exactly in
    these cases: the host holds no layer under [layerId], or the layer is
    not of type [typography:text], or, for [apply_text_style] only, no
    style key of the input is defined.  [apply_text_style] and
    [set_text_shadow] never throw; [set_text] with a falsy [layerId]
    never returns an error result. *)
Theorem tool_errors_exactly (input : gmap string value) (s : S) :
  let unusable :=
    match layers_get (prop input "layerId") s with
    | None => true
    | Some layer =>
        negb (String.eqb (DesignLayer.type (layer_read layer s)) "typography:text")
    end in
  (exists s' r,
     setTextShadow_handler input s = (s', Normal r) /\ isError r = unusable) /\
  (exists s' r,
     applyTextStyle_handler input s = (s', Normal r) /\
     isError r
     = unusable || forallb (fun k => negb (defined (prop input k))) styleKeys) /\
  (truthy (prop input "layerId") = true ->
   exists s' r, setText_handler input s = (s', Normal r) /\ isError r = unusable) /\
  (truthy (prop input "layerId") = false ->
   forall s' r, setText_handler input s = (s', Normal r) -> isError r = false).
Proof.
  cbv zeta. split; [|split; [|split]].
  - unfold setTextShadow_handler.
    destruct (layers_get (prop input "layerId") s) as [layer|]; [|eauto].
    destruct (negb (String.eqb (DesignLayer.type (layer_read layer s))
                      "typography:text")); eauto.
  - destruct (layers_get (prop input "layerId") s) as [layer|] eqn:Hget.
    + destruct (String.eqb_spec (DesignLayer.type (layer_read layer s))
                  "typography:text") as [Htype | Htype].
      * destruct (applyTextStyle_forwards_defined_keys_aux input s layer Hget Htype)
          as (updates & Hcall).
        rewrite Hcall. cbn [negb orb].
        destruct (forallb _ styleKeys); eauto.
      * unfold applyTextStyle_handler. rewrite Hget.
        apply String.eqb_neq in Htype. rewrite Htype. cbn [negb]. eauto.
    + unfold applyTextStyle_handler. rewrite Hget. eauto.
  - intros Hid. unfold setText_handler. rewrite Hid.
    destruct (layers_get (prop input "layerId") s) as [layer|]; [|eauto].
    destruct (negb (String.eqb (DesignLayer.type (layer_read layer s))
                      "typography:text")); eauto.
  - intros Hid s' r. unfold setText_handler. rewrite Hid.
    destruct (layer_name (prop input "text")); [|discriminate].
    intros Hcall. by injection Hcall as <- <-.
Qed.
End ToolErrors.

(** X16, witness: [set_text] on a layer the host does not hold. *)
Lemma tool_error_results_leave_state_witness :
  (@setText_handler example_runtime example_state DesignLayer.t example_context
     (input_of [("layerId", VStr "missing"); ("text", VStr "Test")]) empty_host).1
  = empty_host.
Proof.
  destruct (@tool_error_results_leave_state example_runtime example_state
              DesignLayer.t example_context
              (input_of [("layerId", VStr "missing"); ("text", VStr "Test")])
              empty_host
              (@setText_handler example_runtime example_state DesignLayer.t
                 example_context
                 (input_of [("layerId", VStr "missing"); ("text", VStr "Test")])
                 empty_host).1
              (errorResult "Layer 'missing' not found.")) as [Herr _].
  - left. vm_compute. reflexivity.
  - apply Herr. reflexivity.
Defined.

(** X17, witness: the style call of the tool tests, with a [text] entry
    that is not forwarded. *)
Lemma applyTextStyle_forwards_defined_style_keys_witness :
  exists updates : gmap string value,
    updates !! "fontSize" = Some (VNum 72) /\
    updates !! "fontWeight" = Some (VStr "700") /\
    updates !! "text" = None /\
    @applyTextStyle_handler example_runtime example_state DesignLayer.t
      example_context
      (input_of [("layerId", VStr "layer-1"); ("fontSize", VNum 72);
                 ("fontWeight", VStr "700"); ("text", VStr "ignored")])
      (host_with "typography:text")
    = (record_call (CallEmitChange "layer-updated")
         (record_call (CallUpdateProperties (VStr "layer-1") updates)
            (host_with "typography:text")),
       Normal (textResult "Applied style to text layer 'layer-1'.")).
Proof.
  destruct (@applyTextStyle_forwards_defined_style_keys example_runtime
              example_state DesignLayer.t example_context
              (input_of [("layerId", VStr "layer-1"); ("fontSize", VNum 72);
                         ("fontWeight", VStr "700"); ("text", VStr "ignored")])
              (host_with "typography:text") (example_layer "typography:text"))
    as (updates & Hlookup & Hcall).
  - vm_compute. reflexivity.
  - reflexivity.
  - exists updates. rewrite !Hlookup, Hcall.
    repeat split; vm_compute; reflexivity.
Defined.

(** X18, witness: the shadow call of the tool tests. *)
Lemma setTextShadow_patch_witness :
  exists updates : gmap string value,
    updates !! "shadowEnabled" = Some (VBool true) /\
    updates !! "shadowBlur" = Some (VNum 8) /\
    updates !! "blur" = None /\
    @setTextShadow_handler example_runtime example_state DesignLayer.t
      example_context
      (input_of [("layerId", VStr "layer-1"); ("enabled", VBool true);
                 ("blur", VNum 8)])
      (host_with "typography:text")
    = (record_call (CallEmitChange "layer-updated")
         (record_call (CallUpdateProperties (VStr "layer-1") updates)
            (host_with "typography:text")),
       Normal (textResult "Shadow configured on text layer 'layer-1'.")).
Proof.
  destruct (@setTextShadow_patch example_runtime example_state DesignLayer.t
              example_context
              (input_of [("layerId", VStr "layer-1"); ("enabled", VBool true);
                         ("blur", VNum 8)])
              (host_with "typography:text") (example_layer "typography:text"))
    as (updates & r & Hcall & _ & Hlookup & Hmessage).
  - vm_compute. reflexivity.
  - reflexivity.
  - exists updates. rewrite !Hlookup, Hcall, (Hmessage true) by reflexivity.
    repeat split; vm_compute; reflexivity.
Defined.

(** X19, witness: an update of the text that also moves the layer
    horizontally. *)
Lemma setText_updates_existing_layer_witness :
  exists updates moved : gmap string value,
    updates !! "text" = Some (VStr "Updated") /\
    updates !! "fontSize" = None /\
    moved !! "x" = Some (VNum 100) /\
    moved !! "y" = None /\
    @setText_handler example_runtime example_state DesignLayer.t example_context
      (input_of [("layerId", VStr "layer-1"); ("text", VStr "Updated");
                 ("x", VNum 100)])
      (host_with "typography:text")
    = (record_call (CallEmitChange "layer-updated")
         (record_call (CallUpdateTransform (VStr "layer-1") moved)
            (record_call (CallUpdateProperties (VStr "layer-1") updates)
               (host_with "typography:text"))),
       Normal (textResult "Updated text layer 'layer-1'.")).
Proof.
  destruct (@setText_updates_existing_layer example_runtime example_state
              DesignLayer.t example_context
              (input_of [("layerId", VStr "layer-1"); ("text", VStr "Updated");
                         ("x", VNum 100)])
              (host_with "typography:text") (example_layer "typography:text"))
    as (updates & moved & Hcall & Hupdates & Hmoved).
  - reflexivity.
  - vm_compute. reflexivity.
  - reflexivity.
  - exists updates, moved. rewrite !Hupdates, !Hmoved, Hcall.
    repeat split; vm_compute; reflexivity.
Defined.

(** X20, witness: the creating call of the tool tests, without [y]. *)
Lemma setText_creates_layer_witness :
  exists (layer : DesignLayer.t) (r : McpToolResult),
    @setText_handler example_runtime example_state DesignLayer.t example_context
      (input_of [("text", VStr "Custom"); ("x", VNum 100); ("fontSize", VNum 72)])
      empty_host
    = (record_call (CallEmitChange "layer-added")
         {| stored := {[ "layer-0-" := layer ]}; calls := [CallAdd layer] |},
       Normal r) /\
    DesignLayer.properties layer !! "text" = Some (VStr "Custom") /\
    DesignLayer.properties layer !! "fontSize" = Some (VNum 72) /\
    DesignLayer.properties layer !! "fontWeight" = Some (VStr "400") /\
    LayerTransform.x (DesignLayer.transform layer) = VNum 100 /\
    LayerTransform.y (DesignLayer.transform layer) = VNum 50 /\
    LayerTransform.width (DesignLayer.transform layer) = 700%float /\
    LayerTransform.height (DesignLayer.transform layer) = 144%float.
Proof.
  destruct (@setText_creates_layer example_runtime example_state DesignLayer.t
              example_context
              (input_of [("text", VStr "Custom"); ("x", VNum 100);
                         ("fontSize", VNum 72)])
              empty_host)
    as (layer & r & Hcall & _ & Hid & _ & Hprops & _ & Hx & Hy & Hw & Hh).
  - reflexivity.
  - intros [Hn | Hn]; vm_compute in Hn; discriminate.
  - exists layer, r. rewrite Hcall, !Hprops, Hx, Hy, Hw, Hh.
    assert (Hsize : prop (DesignLayer.properties layer) "fontSize" = VNum 72).
    { unfold prop. rewrite Hprops. vm_compute. reflexivity. }
    rewrite Hsize.
    split.
    { unfold layers_add, example_context. rewrite Hid. vm_compute. reflexivity. }
    repeat split; vm_compute; reflexivity.
Defined.

(** X21, witness: [set_text] on an empty input. *)
Lemma setText_create_without_text_throws_witness :
  @setText_handler example_runtime example_state DesignLayer.t example_context
    (input_of []) empty_host
  = (empty_host, Throw TypeError).
Proof.
  apply (@setText_create_without_text_throws example_runtime example_state
           DesignLayer.t example_context).
  - reflexivity.
  - left. reflexivity.
Defined.

(** X22, witness: a new layer from a text and a colour. *)
Lemma setText_created_layer_validates_witness :
  exists (layer : DesignLayer.t) (r : McpToolResult),
    @setText_handler example_runtime example_state DesignLayer.t example_context
      (input_of [("text", VStr "New text"); ("color", VStr "#ff0000")]) empty_host
    = (record_call (CallEmitChange "layer-added")
         (@layers_add example_state DesignLayer.t example_context layer empty_host),
       Normal r) /\
    validate (DesignLayer.properties layer) = None.
Proof.
  apply (@setText_created_layer_validates example_runtime example_state
           DesignLayer.t example_context
           (input_of [("text", VStr "New text"); ("color", VStr "#ff0000")])
           empty_host "New text"); reflexivity.
Defined.

(** X23, witness: Georgia is named in the listing. *)
Lemma listFonts_names_every_family_witness :
  exists text,
    @listFonts_handler example_runtime example_state (input_of []) empty_host
    = (empty_host, Normal (textResult text)) /\
    includes text "Georgia" = true.
Proof.
  apply (@listFonts_names_every_family example_runtime example_state
           (input_of []) empty_host
           {| family := "Georgia"; weights := [400%float; 700%float];
              category := "serif" |}).
  cbn [In BUILT_IN_FONTS]. do 2 right. left. reflexivity.
Defined.

(** The name of a new layer is cut after twenty UTF-16 code units, not
    after twenty bytes: a text of twenty-one two-byte characters loses
    the last one, a text of twenty keeps them all. *)
Example layer_name_counts_code_units :
  layer_name (VStr "ééééééééééééééééééééé") = Normal (VStr "éééééééééééééééééééé…")
  /\ layer_name (VStr "éééééééééééééééééééé") = Normal (VStr "éééééééééééééééééééé")
  /\ layer_name (VStr "This is a very long text for a layer")
     = Normal (VStr "This is a very long …").
Proof. repeat split; vm_compute; reflexivity. Qed.
